(** * QIP incentive calculation engine: a shallow embedding

    The development follows [src/step1_인센티브_계산.py].  Pure helpers become
    functions; the employee table ([month_data]) becomes a list of rows; Python
    dictionaries whose iteration order matters become association lists, sets
    become [gset]; loops become folds or fuel-indexed recursion.

    Conventions used throughout:
    - money amounts are whole VND, so a table cell holding an amount is a [Z]
      and [int(float(x))] is the identity on it; a missing / NaN value is
      [None];
    - Python float arithmetic (sums, products, quotients) is binary64
      arithmetic on Rocq's primitive floats, [float(z)] is [float_of_Z z] and
      [int(f)] is [py_int f]; an integer compared with a float is converted
      first, which changes nothing below 2^53;
    - measured values and thresholds, which are only compared, are rationals;
    - strings are ASCII strings. *)

From Stdlib Require Import ZArith QArith Floats String Ascii List Lia.
From stdpp Require Import gmap strings list.

Local Open Scope string_scope.
Local Open Scope list_scope.
Local Open Scope Z_scope.

Set Warnings "-clear-no-such-hyp,-inexact-float".

(* ===================================================================== *)
(** * Part I: definitions *)
(* ===================================================================== *)

(** ** Python string helpers *)

(** [str.isspace] on the ASCII range. *)
Definition is_space (c : ascii) : bool :=
  let n := N_of_ascii c in
  ((9 <=? n) && (n <=? 13) || (28 <=? n) && (n <=? 32))%N.

Definition upper_char (c : ascii) : ascii :=
  let n := N_of_ascii c in
  if ((97 <=? n) && (n <=? 122))%N then ascii_of_N (n - 32) else c.

(** [s.upper()] *)
Fixpoint upper (s : string) : string :=
  match s with
  | EmptyString => EmptyString
  | String c s' => String (upper_char c) (upper s')
  end.

Fixpoint lstrip (s : string) : string :=
  match s with
  | EmptyString => EmptyString
  | String c s' => if is_space c then lstrip s' else s
  end.

Fixpoint rstrip (s : string) : string :=
  match s with
  | EmptyString => EmptyString
  | String c s' =>
      match rstrip s' with
      | EmptyString => if is_space c then EmptyString else String c EmptyString
      | r => String c r
      end
  end.

(** [s.strip()] *)
Definition strip (s : string) : string := rstrip (lstrip s).

(** [s.startswith(p)] *)
Definition startswith (s p : string) : bool := String.prefix p s.

(** [x in [s1, ..., sn]] for strings. *)
Definition str_in (x : string) (l : list string) : bool :=
  existsb (String.eqb x) l.

(** [s[:n]] *)
Fixpoint str_take (n : nat) (s : string) : string :=
  match n, s with
  | S n', String c s' => String c (str_take n' s')
  | _, _ => EmptyString
  end.

(** [float(z)]: the binary64 nearest to [z] (exact below 2^53). *)
Definition float_of_Z (z : Z) : float :=
  SF2Prim (binary_normalize prec emax z 0 false).

(** [int(f)] for a finite float: truncation toward zero. *)
Definition py_int (f : float) : Z :=
  match Prim2SF f with
  | S754_finite sign mantissa exponent =>
      let magnitude :=
        if 0 <=? exponent then Z.pos mantissa * 2 ^ exponent
        else Z.pos mantissa / 2 ^ (- exponent) in
      if sign then - magnitude else magnitude
  | _ => 0
  end.

(** [d.get(k, dflt)] on a dictionary with integer keys and values. *)
Fixpoint dict_get (d : list (Z * Z)) (k : Z) (dflt : Z) : Z :=
  match d with
  | [] => dflt
  | (k', v) :: d' => if k =? k' then v else dict_get d' k dflt
  end.

(** ** Position categories (the strings returned by
    [_get_type1_position_category]) *)

Inductive position_category :=
  | AQL_INSPECTOR
  | MANAGER_TYPE
  | LINE_LEADER_TYPE
  | AUDITOR_TRAINER
  | MODEL_MASTER
  | ASSEMBLY_INSPECTOR
  | OTHER.

#[global] Instance position_category_eq_dec : EqDecision position_category.
Proof. solve_decision. Defined.

(** [_get_applicable_conditions]: [condition_mapping.get(category, [1,2,3,4])] *)
Definition _get_applicable_conditions (c : position_category) : list Z :=
  match c with
  | AQL_INSPECTOR => [1; 2; 3; 4; 5]
  | ASSEMBLY_INSPECTOR => [1; 2; 3; 4; 5; 6; 9; 10]
  | AUDITOR_TRAINER => [1; 2; 3; 4; 7; 8]
  | MODEL_MASTER => [1; 2; 3; 4; 8]
  | OTHER => [1; 2; 3; 4]
  | MANAGER_TYPE | LINE_LEADER_TYPE => [1; 2; 3; 4]
  end.

(** ** Diagnostics printed by the reverse look-ups *)

Inductive diagnostic :=
  | AmountNotInProgressionTable (incentive_int : Z)
  | ManualVerificationRecommended.

(** ** Continuous-month reconstruction (DataProcessor) *)

(** The hard-coded fallback of [_load_progression_table]. *)
Definition default_progression_table : list (Z * Z) :=
  [(0, 0); (1, 150000); (2, 250000); (3, 300000); (4, 350000);
   (5, 400000); (6, 450000); (7, 500000); (8, 650000); (9, 750000);
   (10, 850000); (11, 950000); (12, 1000000); (13, 1000000);
   (14, 1000000); (15, 1000000)].

(** The loop of [_reverse_calculate_months_from_incentive] over
    [self.progression_table.items()]. *)
Fixpoint legacy_scan (items : list (Z * Z)) (incentive_int : Z) : option Z :=
  match items with
  | [] => None
  | (months, amount) :: rest =>
      if months =? 0 then legacy_scan rest incentive_int
      else if incentive_int =? amount then Some (months + 1)
      else legacy_scan rest incentive_int
  end.

(** [DataProcessor._reverse_calculate_months_from_incentive]; the result is
    paired with what the call prints. *)
Definition _reverse_calculate_months_from_incentive
    (progression_table : list (Z * Z)) (incentive_amount : option Z)
  : Z * list diagnostic :=
  match incentive_amount with
  | None => (1, [])
  | Some a =>
      if a <=? 0 then (1, [])
      else
        let incentive_int := a in
        match legacy_scan progression_table incentive_int with
        | Some next => (next, [])
        | None =>
            (1, [AmountNotInProgressionTable incentive_int;
                 ManualVerificationRecommended])
        end
  end.

(** The table local to [_reverse_calculate_months_from_incentive_unified]. *)
Definition progression_table : list (Z * Z) :=
  [(1, 150000); (2, 250000); (3, 300000); (4, 350000); (5, 400000);
   (6, 450000); (7, 500000); (8, 650000); (9, 750000); (10, 850000);
   (11, 950000); (12, 1000000); (13, 1000000); (14, 1000000);
   (15, 1000000)].

(** First loop: exact match, in insertion order. *)
Fixpoint exact_match (items : list (Z * Z)) (incentive_int : Z) : option Z :=
  match items with
  | [] => None
  | (months, amount) :: rest =>
      if incentive_int =? amount then Some months
      else exact_match rest incentive_int
  end.

(** [diff < min_diff] where [min_diff] starts at [float('inf')] ([None]). *)
Definition lt_min_diff (diff : Z) (min_diff : option Z) : bool :=
  match min_diff with
  | None => true
  | Some m => diff <? m
  end.

(** Second loop: closest amount. *)
Fixpoint closest_scan (items : list (Z * Z)) (incentive_int : Z)
    (closest_months : Z) (min_diff : option Z) : Z * option Z :=
  match items with
  | [] => (closest_months, min_diff)
  | (months, amount) :: rest =>
      let diff := Z.abs (incentive_int - amount) in
      if lt_min_diff diff min_diff
      then closest_scan rest incentive_int months (Some diff)
      else closest_scan rest incentive_int closest_months min_diff
  end.

(** [min_diff <= incentive_int * 0.1] *)
Definition within_tolerance (min_diff : option Z) (incentive_int : Z) : bool :=
  match min_diff with
  | None => false
  | Some d => (float_of_Z d <=? float_of_Z incentive_int * 0.1)%float
  end.

Definition hwk_table : list (Z * Z) :=
  [(4, 300000); (5, 300000); (6, 300000);
   (7, 500000); (8, 500000); (9, 500000);
   (10, 700000); (11, 700000); (12, 700000);
   (13, 900000); (14, 900000); (15, 900000)].

Definition part1_table : list (Z * Z) :=
  [(1, 150000); (2, 250000); (3, 300000); (4, 350000); (5, 400000);
   (6, 450000); (7, 500000); (8, 650000); (9, 750000); (10, 850000);
   (11, 950000); (12, 1000000); (13, 1000000); (14, 1000000);
   (15, 1000000)].

(** The loop [for months in range(1, 16)] of [_reverse_calculate_aql_months]. *)
Fixpoint aql_scan (months_range : list Z) (base_amount : Z) : option Z :=
  match months_range with
  | [] => None
  | months :: rest =>
      let part1 := dict_get part1_table months 0 in
      let part3 := if 4 <=? months then dict_get hwk_table months 0 else 0 in
      let expected_base := part1 + part3 in
      if (0 <? expected_base)
         && (float_of_Z (Z.abs (base_amount - expected_base))
             <=? float_of_Z expected_base * 0.05)%float
      then Some months
      else aql_scan rest base_amount
  end.

Definition _reverse_calculate_aql_months (total_incentive : Z) : Z :=
  if total_incentive <=? 0 then 0
  else
    let cfa_amount := 700000 in
    let base_amount := total_incentive - cfa_amount in
    let base_amount := if base_amount <? 0 then total_incentive else base_amount in
    match aql_scan (seqZ 1 15) base_amount with
    | Some months => months
    | None => 1
    end.

Definition _reverse_calculate_months_from_incentive_unified
    (incentive_amount : option Z) (category : position_category) : Z :=
  match incentive_amount with
  | None => 0
  | Some a =>
      if a <=? 0 then 0
      else
        let incentive_int := a in
        if decide (category = AQL_INSPECTOR)
        then _reverse_calculate_aql_months incentive_int
        else
          match exact_match progression_table incentive_int with
          | Some months => months
          | None =>
              let '(closest_months, min_diff) :=
                closest_scan progression_table incentive_int 1 None in
              if within_tolerance min_diff incentive_int
              then closest_months
              else 1
          end
  end.

(** The unified look-up contains no [print]: its output trace is empty. *)
Definition _reverse_calculate_months_from_incentive_unified_trace
    (incentive_amount : option Z) (category : position_category)
  : Z * list diagnostic :=
  (_reverse_calculate_months_from_incentive_unified incentive_amount category, []).

(** [_calculate_continuous_months_type1_unified]; [Previous_Incentive] is the
    cell read from the row ([None] when the row, the cell or its value is
    missing, or when reading it raised). *)
Definition _calculate_continuous_months_type1_unified
    (all_conditions_pass : bool) (category : position_category)
    (Previous_Incentive : option Z) : Z :=
  if negb all_conditions_pass then 0
  else
    let previous_incentive := default 0 Previous_Incentive in
    if previous_incentive <=? 0 then 1
    else
      let previous_months :=
        _reverse_calculate_months_from_incentive_unified
          (Some previous_incentive) category in
      Z.min (previous_months + 1) 15.

(** ** Position-category incentive calculator *)

Record incentive_result := {
  incentive_amount : Z;
  continuous_months : Z;
  calculation_method : string
}.

(** The table of [_calculate_standard_progression] (it has a 0 entry). *)
Definition standard_progression_table : list (Z * Z) :=
  (0, 0) :: progression_table.

Definition _calculate_standard_progression (months_in : Z) : incentive_result :=
  let months := Z.min months_in 15 in
  let incentive := dict_get standard_progression_table months 0 in
  {| incentive_amount := incentive;
     continuous_months := months;
     calculation_method := "standard_progression" |}.

Definition part3_table : list (Z * Z) :=
  [(1, 0); (2, 0); (3, 0)] ++ hwk_table.

(** [_calculate_aql_inspector_3part]; [cfa_certified] is the answer of
    [_check_cfa_certification], which reads a configuration file. *)
Definition _calculate_aql_inspector_3part (cfa_certified : bool) (months_in : Z)
  : incentive_result :=
  let months := Z.min months_in 15 in
  let part1 := dict_get part1_table months 0 in
  let part2 := if cfa_certified then 700000 else 0 in
  let part3 := dict_get part3_table months 0 in
  {| incentive_amount := part1 + part2 + part3;
     continuous_months := months;
     calculation_method := "3-part" |}.

Definition _calculate_type1_incentive_by_category
    (category : position_category) (months : Z) (cfa_certified : bool)
    (all_conditions_pass : bool) : incentive_result :=
  if negb all_conditions_pass || (months <=? 0)
  then {| incentive_amount := 0;
          continuous_months := 0;
          calculation_method := "conditions_not_met" |}
  else if decide (category = AQL_INSPECTOR)
  then _calculate_aql_inspector_3part cfa_certified months
  else _calculate_standard_progression months.

(** ** Condition evaluator *)

(** A table cell holding text; [None] is Python's [None] / NaN. *)
Abbreviation cell := (option string) (only parsing).

(** [str(v)] of a cell. *)
Definition py_str (v : cell) : string := default "None" v.

(** The [condition_columns] dictionary of [_evaluate_type1_conditions_unified]. *)
Definition condition_columns (cond_num : Z) : option string :=
  match cond_num with
  | 1 => Some "cond_1_attendance_rate"
  | 2 => Some "cond_2_unapproved_absence"
  | 3 => Some "cond_3_actual_working_days"
  | 4 => Some "cond_4_minimum_days"
  | 5 => Some "cond_5_aql_personal_failure"
  | 6 => Some "cond_6_aql_continuous"
  | 7 => Some "cond_7_aql_team_area"
  | 8 => Some "cond_8_area_reject"
  | 9 => Some "cond_9_5prs_pass_rate"
  | 10 => Some "cond_10_5prs_inspection_qty"
  | _ => None
  end.

Definition pass_values : list string :=
  ["PASS"; "NOT_APPLICABLE"; "YES"; "1"; "TRUE"].

(** [str(row.get(col_name, 'PASS')).strip().upper()] *)
Definition condition_value (row : gmap string cell) (col_name : string) : string :=
  upper (strip (py_str (default (Some "PASS") (row !! col_name)))).

Record condition_result := {
  all_pass : bool;
  applicable_conditions : list Z;
  passed_conditions : list Z;
  failed_conditions : list Z;
  pass_rate : float;
  details : list (Z * string)
}.

(** The loop [for cond_num in applicable_conditions]; the accumulator is
    (passed_conditions, failed_conditions, details). *)
Fixpoint evaluate_loop (row : gmap string cell) (conds : list Z)
    (acc : list Z * list Z * list (Z * string))
  : list Z * list Z * list (Z * string) :=
  match conds with
  | [] => acc
  | cond_num :: rest =>
      let '(passed, failed, det) := acc in
      match condition_columns cond_num with
      | None =>
          evaluate_loop row rest
            (passed ++ [cond_num], failed, det ++ [(cond_num, "PASS")])
      | Some col_name =>
          let value := condition_value row col_name in
          if str_in value pass_values
          then evaluate_loop row rest
                 (passed ++ [cond_num], failed, det ++ [(cond_num, "PASS")])
          else evaluate_loop row rest
                 (passed, failed ++ [cond_num], det ++ [(cond_num, "FAIL")])
      end
  end.

(** [len(a) / len(b) if b else 0.0] *)
Definition len_ratio (a b : list Z) : float :=
  match b with
  | [] => 0%float
  | _ => (float_of_Z (Z.of_nat (length a)) / float_of_Z (Z.of_nat (length b)))%float
  end.

Definition _evaluate_type1_conditions_unified
    (row : gmap string cell) (category : position_category) : condition_result :=
  let applicable := _get_applicable_conditions category in
  let '(passed, failed, det) := evaluate_loop row applicable ([], [], []) in
  {| all_pass := bool_decide (length failed = 0%nat);
     applicable_conditions := applicable;
     passed_conditions := passed;
     failed_conditions := failed;
     pass_rate := len_ratio passed applicable;
     details := det |}.

(** One iteration of the employee loop of [calculate_type1_incentive_unified]
    (steps 2 to 4), for a category that is not skipped. *)
Record type1_outcome := {
  condition_eval : condition_result;
  Continuous_Months : Z;
  outcome : incentive_result
}.

Definition calculate_type1_row (row : gmap string cell)
    (Previous_Incentive : option Z) (category : position_category)
    (cfa_certified : bool) : type1_outcome :=
  let condition_eval := _evaluate_type1_conditions_unified row category in
  let all_conditions_pass := all_pass condition_eval in
  let months :=
    _calculate_continuous_months_type1_unified
      all_conditions_pass category Previous_Incentive in
  {| condition_eval := condition_eval;
     Continuous_Months := months;
     outcome := _calculate_type1_incentive_by_category
                  category months cfa_certified all_conditions_pass |}.

(** ** Audit-history consecutive-failure detector *)

(** The classification loop of [process_aql_conditions_with_history]:
    [monthN_failures] map an employee id to a positive failure count. *)
Definition month_fail (failures : gmap string Z) (emp_id : string) : bool :=
  0 <? default 0 (failures !! emp_id).

Definition all_employees (m1 m2 m3 : gmap string Z) : gset string :=
  dom m1 ∪ dom m2 ∪ dom m3.

Definition continuous_fail_3month (m1 m2 m3 : gmap string Z) : gset string :=
  filter (λ emp_id, month_fail m1 emp_id && month_fail m2 emp_id
                    && month_fail m3 emp_id = true)
         (all_employees m1 m2 m3).

Definition continuous_fail_2month (m1 m2 m3 : gmap string Z) : gset string :=
  filter (λ emp_id, negb (month_fail m1 emp_id && month_fail m2 emp_id
                          && month_fail m3 emp_id)
                    && (month_fail m2 emp_id && month_fail m3 emp_id) = true)
         (all_employees m1 m2 m3).

(** The [Continuous_FAIL] tag written for [emp_id]. *)
Definition continuous_fail_tag (m1 m2 m3 : gmap string Z)
    (month2_name month3_name : string) (emp_id : string) : string :=
  if decide (emp_id ∈ continuous_fail_3month m1 m2 m3) then "YES_3MONTHS"
  else if decide (emp_id ∈ continuous_fail_2month m1 m2 m3) then
    let m2_abbrev := upper (str_take 3 month2_name) in
    let m3_abbrev := upper (str_take 3 month3_name) in
    ("YES_2MONTHS_" ++ m2_abbrev ++ "_" ++ m3_abbrev)%string
  else "NO".

(** [CompleteQIPCalculator._is_consecutive_failure_for_year]; [config_year]
    is [self.config.year]. *)
Definition _is_consecutive_failure_for_year (config_year : Z)
    (continuous_fail_value : string) (year : option Z) : bool :=
  let year := default config_year year in
  let value := upper (strip continuous_fail_value) in
  if year <=? 2025 then String.eqb value "YES_3MONTHS"
  else startswith value "YES".

(** ** Excel condition columns ([add_condition_evaluation_to_excel]) *)

Record thresholds := {
  attendance_rate_threshold : Q;
  unapproved_absence_threshold : Q;
  minimum_working_days_threshold : Q;
  area_reject_pct : Q;
  prs_pass_rate_threshold : Q;
  prs_min_qty_threshold : Q
}.

(** The fallbacks used when [self.config.thresholds] has no entry. *)
Definition default_thresholds : thresholds :=
  {| attendance_rate_threshold := 88;
     unapproved_absence_threshold := 2;
     minimum_working_days_threshold := 12;
     area_reject_pct := 3;
     prs_pass_rate_threshold := 95;
     prs_min_qty_threshold := 100 |}.

(** The measured values read from one row.  [team_aql_fail] is the flag
    computed from the subordinates (line leaders) or from the assigned area
    (audit and training team) before condition 7 is written. *)
Record measures := {
  attendance_rate : Q;
  total_days : Q;
  approved_leave : Q;
  unapproved_absence : option Q;
  actual_working_days : Q;
  aql_fail : Q;
  continuous_fail : string;
  team_aql_fail : bool;
  reject_rate : Q;
  prs_pass_rate : Q;
  prs_qty : Q
}.

Definition pass_if (b : bool) : string := if b then "PASS" else "FAIL".

(** [cond_applicable if cond_applicable == 'NOT_APPLICABLE' else cond_result]
    with [cond_applicable = 'Y' if i in applicable_conditions else
    'NOT_APPLICABLE']. *)
Definition gated (applicable : list Z) (i : Z) (result : string) : cell :=
  if bool_decide (i ∈ applicable) then Some result else Some "NOT_APPLICABLE".

Definition condition_cells (config_year : Z) (th : thresholds)
    (applicable : list Z) (m : measures) : gmap string cell :=
  let expected_working_days := (total_days m - approved_leave m)%Q in
  let cond_1_result :=
    if Qle_bool expected_working_days 0 then "NOT_APPLICABLE"
    else pass_if (Qle_bool (attendance_rate_threshold th) (attendance_rate m)) in
  let cond_2_result :=
    match unapproved_absence m with
    | None => "NOT_APPLICABLE"
    | Some u => pass_if (Qle_bool u (unapproved_absence_threshold th))
    end in
  let cond_3_result :=
    pass_if (negb (Qle_bool (actual_working_days m) 0)) in
  let cond_4_result :=
    pass_if (Qle_bool (minimum_working_days_threshold th) (actual_working_days m)) in
  let cond_5_result := pass_if (Qeq_bool (aql_fail m) 0) in
  let cond_6_result :=
    pass_if (negb (_is_consecutive_failure_for_year
                     config_year (continuous_fail m) None)) in
  let cond_7 :=
    if bool_decide (7 ∈ applicable)
    then Some (pass_if (negb (team_aql_fail m)))
    else Some "NOT_APPLICABLE" in
  let cond_8 :=
    if bool_decide (8 ∈ applicable)
    then Some (pass_if (negb (Qle_bool (area_reject_pct th) (reject_rate m))))
    else Some "NOT_APPLICABLE" in
  let cond_9_result :=
    pass_if (Qle_bool (prs_pass_rate_threshold th) (prs_pass_rate m)) in
  let cond_10_result :=
    pass_if (Qle_bool (prs_min_qty_threshold th) (prs_qty m)) in
  <["cond_1_attendance_rate" := gated applicable 1 cond_1_result]>
  (<["cond_2_unapproved_absence" := gated applicable 2 cond_2_result]>
  (<["cond_3_actual_working_days" := gated applicable 3 cond_3_result]>
  (<["cond_4_minimum_days" := gated applicable 4 cond_4_result]>
  (<["cond_5_aql_personal_failure" := gated applicable 5 cond_5_result]>
  (<["cond_6_aql_continuous" := gated applicable 6 cond_6_result]>
  (<["cond_7_aql_team_area" := cond_7]>
  (<["cond_8_area_reject" := cond_8]>
  (<["cond_9_5prs_pass_rate" := gated applicable 9 cond_9_result]>
  (<["cond_10_5prs_inspection_qty" := gated applicable 10 cond_10_result]>
   ∅))))))))).

(** [result not in ['N/A', 'NOT_APPLICABLE', None] and pd.notna(result)] *)
Definition is_counted (result : cell) : bool :=
  match result with
  | None => false
  | Some s => negb (str_in s ["N/A"; "NOT_APPLICABLE"])
  end.

(** The loop [for i in range(1, 11)] computing
    (applicable_count, passed_count). *)
Fixpoint count_conditions (row : gmap string cell) (conds : list Z)
    (applicable_count passed_count : Z) : Z * Z :=
  match conds with
  | [] => (applicable_count, passed_count)
  | i :: rest =>
      match condition_columns i ≫= (λ cond_col, row !! cond_col) with
      | Some result =>
          if is_counted result
          then count_conditions row rest (applicable_count + 1)
                 (if bool_decide (result = Some "PASS")
                  then passed_count + 1 else passed_count)
          else count_conditions row rest applicable_count passed_count
      | None => count_conditions row rest applicable_count passed_count
      end
  end.

Record condition_aggregate := {
  conditions_applicable : Z;
  conditions_passed : Z;
  conditions_pass_rate : float
}.

Definition aggregate_conditions (row : gmap string cell) : condition_aggregate :=
  let '(applicable_count, passed_count) :=
    count_conditions row (seqZ 1 10) 0 0 in
  {| conditions_applicable := applicable_count;
     conditions_passed := passed_count;
     conditions_pass_rate :=
       if 0 <? applicable_count
       then (float_of_Z passed_count / float_of_Z applicable_count * 100)%float
       else 0%float |}.

(** ** The employee table seen by the hierarchy roll-up *)

Record Row := {
  Employee_No : option Z;            (* parsed id; [None] when missing or not a number *)
  Full_Name : string;
  ROLE_TYPE_STD : string;
  QIP_POSITION_1ST_NAME : string;
  MST_direct_boss_name : option Z;   (* parsed id of the boss; [None] when empty or not a number *)
  direct_boss_name : option string;  (* [None] is NaN *)
  Stop_working_Date : option string;
  pregnant : option string;
  Incentive : Z;                     (* the current month's incentive column *)
  Continuous_FAIL : string;
  cond_cells : gmap string cell
}.

Definition set_Incentive (row : Row) (incentive : Z) : Row :=
  {| Employee_No := Employee_No row;
     Full_Name := Full_Name row;
     ROLE_TYPE_STD := ROLE_TYPE_STD row;
     QIP_POSITION_1ST_NAME := QIP_POSITION_1ST_NAME row;
     MST_direct_boss_name := MST_direct_boss_name row;
     direct_boss_name := direct_boss_name row;
     Stop_working_Date := Stop_working_Date row;
     pregnant := pregnant row;
     Incentive := incentive;
     Continuous_FAIL := Continuous_FAIL row;
     cond_cells := cond_cells row |}.

(** [month_data[month_data['Employee No'].astype(str) == str(id)]] followed by
    [.iloc[0]]: the first row with that id. *)
Definition find_row (month_data : list Row) (id : Z) : option Row :=
  List.find (λ r, bool_decide (Employee_No r = Some id)) month_data.

(** [row.get(col) == text] on a condition cell. *)
Definition cell_eq (row : Row) (col text : string) : bool :=
  bool_decide (cond_cells row !! col = Some (Some text)).

(** [row.get(col) in texts] *)
Definition cell_in (row : Row) (col : string) (texts : list string) : bool :=
  match cond_cells row !! col with
  | Some (Some s) => str_in s texts
  | _ => false
  end.

Definition attendance_fail (row : Row) : bool :=
  cell_eq row "cond_1_attendance_rate" "FAIL"
  || cell_eq row "cond_2_unapproved_absence" "FAIL"
  || cell_eq row "cond_3_actual_working_days" "FAIL"
  || cell_eq row "cond_4_minimum_days" "FAIL".

(** [check_subordinates_continuous_fail] *)
Definition check_subordinates_continuous_fail (config_year : Z)
    (month_data : list Row) (manager_id : option Z)
    (subordinate_mapping : gmap Z (list Z)) : bool :=
  match manager_id ≫= (λ id, subordinate_mapping !! id) with
  | None => false
  | Some subordinates =>
      existsb
        (λ sub_id,
           match find_row month_data sub_id with
           | Some sub_row =>
               _is_consecutive_failure_for_year
                 config_year (Continuous_FAIL sub_row) None
           | None => false
           end)
        subordinates
  end.

(** ** Line-leader incentive ([calculate_line_leader_incentive_type1_only]) *)

(** The running float sum [total += float(amount)] over [rows]. *)
Definition add_incentive (total : float) (r : Row) : float :=
  (total + float_of_Z (Incentive r))%float.

Definition float_total (rows : list Row) : float :=
  fold_left add_incentive rows 0%float.

(** The loop [for sub_id in subordinates]; the accumulator is
    (total_sub_incentive, receiving_count, total_count). *)
Fixpoint sum_subordinates (month_data : list Row) (subordinates : list Z)
    (acc : float * Z * Z) : float * Z * Z :=
  match subordinates with
  | [] => acc
  | sub_id :: rest =>
      let '(total_sub_incentive, receiving_count, total_count) := acc in
      match find_row month_data sub_id with
      | Some sub_row =>
          if String.eqb (ROLE_TYPE_STD sub_row) "TYPE-1" then
            let sub_incentive := Incentive sub_row in
            if 0 <? sub_incentive
            then sum_subordinates month_data rest
                   (add_incentive total_sub_incentive sub_row,
                    receiving_count + 1, total_count + 1)
            else sum_subordinates month_data rest
                   (total_sub_incentive, receiving_count, total_count + 1)
          else sum_subordinates month_data rest acc
      | None => sum_subordinates month_data rest acc
      end
  end.

(** [int(total_sub_incentive * 0.12 * (receiving_count / total_count))] *)
Definition line_leader_formula (total_sub_incentive : float)
    (receiving_count total_count : Z) : Z :=
  py_int (total_sub_incentive * 0.12
          * (float_of_Z receiving_count / float_of_Z total_count))%float.

(** The body of the loop over line-leader rows: the value the current month's
    incentive cell of [row] holds afterwards.  [should_check_subordinates]
    is what the position matrix (a JSON file) says about condition 7 for
    line leaders; it is [true] when the matrix is missing. *)
Definition line_leader_incentive (config_year : Z)
    (should_check_subordinates : bool) (month_data : list Row)
    (subordinate_mapping : gmap Z (list Z)) (row : Row) : Z :=
  if 0 <? Incentive row then Incentive row
  else
    let leader_id := Employee_No row in
    if attendance_fail row then 0
    else
      match leader_id ≫= (λ id, subordinate_mapping !! id) with
      | Some subordinates =>
          let '(total_sub_incentive, receiving_count, total_count) :=
            sum_subordinates month_data subordinates (0%float, 0, 0) in
          let has_continuous_fail :=
            if should_check_subordinates
            then check_subordinates_continuous_fail
                   config_year month_data leader_id subordinate_mapping
            else false in
          if has_continuous_fail then 0
          else if (0 <? total_count) && (0 <? receiving_count)
          then line_leader_formula total_sub_incentive receiving_count total_count
          else 0
      | None => 0
      end.

(** The loop itself: the rows selected by the mask are a snapshot taken
    before the loop, the subordinates are read from the table being updated. *)
Fixpoint line_leader_loop (config_year : Z) (should_check_subordinates : bool)
    (subordinate_mapping : gmap Z (list Z))
    (selected : list (nat * Row)) (month_data : list Row) : list Row :=
  match selected with
  | [] => month_data
  | (idx, row) :: rest =>
      if 0 <? Incentive row
      then line_leader_loop config_year should_check_subordinates
             subordinate_mapping rest month_data
      else
        let incentive :=
          line_leader_incentive config_year should_check_subordinates
            month_data subordinate_mapping row in
        line_leader_loop config_year should_check_subordinates
          subordinate_mapping rest
          (alter (λ r, set_Incentive r incentive) idx month_data)
  end.

(** ** Hierarchy traversal ([_find_all_subordinate_line_leaders]) *)

Definition lower_char (c : ascii) : ascii :=
  let n := N_of_ascii c in
  if ((65 <=? n) && (n <=? 90))%N then ascii_of_N (n + 32) else c.

(** [s.lower()] *)
Fixpoint lower (s : string) : string :=
  match s with
  | EmptyString => EmptyString
  | String c s' => String (lower_char c) (lower s')
  end.

(** [pd.notna(v) and str(v).strip()] *)
Definition nonblank (v : option string) : bool :=
  match v with
  | Some s => negb (String.eqb (strip s) "")
  | None => false
  end.

(** [pd.notna(v) and str(v).strip().lower() == 'yes'] *)
Definition is_yes (v : option string) : bool :=
  match v with
  | Some s => String.eqb (lower (strip s)) "yes"
  | None => false
  end.

Record bfs_state := {
  queue : list (Z * string);
  visited : gset Z;
  line_leaders : list Row
}.

Definition is_subordinate (row : Row) (current_id : Z) (current_name : string) : bool :=
  bool_decide (MST_direct_boss_name row = Some current_id)
  || (nonblank (direct_boss_name row)
      && String.eqb (strip (py_str (direct_boss_name row))) current_name).

Definition intermediate_positions : list string :=
  ["(V) SUPERVISOR"; "SUPERVISOR"; "GROUP LEADER"; "A.MANAGER"; "ASSISTANT MANAGER"].

(** One iteration of [for _, row in self.month_data.iterrows()]. *)
Definition scan_row (current_id : Z) (current_name : string)
    (st : bfs_state) (row : Row) : bfs_state :=
  match Employee_No row with
  | None => st
  | Some emp_id_int =>
      if bool_decide (emp_id_int ∈ visited st) then st
      else if is_subordinate row current_id current_name then
        let visited' := {[emp_id_int]} ∪ visited st in
        let emp_name := Full_Name row in
        let emp_position := QIP_POSITION_1ST_NAME row in
        let emp_type := ROLE_TYPE_STD row in
        if nonblank (Stop_working_Date row)
        then {| queue := queue st; visited := visited';
                line_leaders := line_leaders st |}
        else if is_yes (pregnant row)
        then {| queue := queue st; visited := visited';
                line_leaders := line_leaders st |}
        else
          {| queue :=
               if str_in emp_position intermediate_positions
               then queue st ++ [(emp_id_int, emp_name)] else queue st;
             visited := visited';
             line_leaders :=
               if String.eqb emp_type "TYPE-1"
                  && String.eqb emp_position "LINE LEADER"
               then line_leaders st ++ [row] else line_leaders st |}
      else st
  end.

(** [while queue: ...]; [fuel] bounds the number of iterations. *)
Fixpoint bfs_loop (fuel : nat) (month_data : list Row) (st : bfs_state)
  : option bfs_state :=
  match queue st with
  | [] => Some st
  | (current_id, current_name) :: rest =>
      match fuel with
      | O => None
      | S fuel' =>
          bfs_loop fuel' month_data
            (foldl (scan_row current_id current_name)
               {| queue := rest; visited := visited st;
                  line_leaders := line_leaders st |}
               month_data)
      end
  end.

(** The state returned by the traversal started at [manager_id], or [None]
    when [fuel] iterations were not enough. *)
Definition bfs_from (fuel : nat) (month_data : list Row) (manager_id : option Z)
  : option bfs_state :=
  match manager_id with
  | None => Some {| queue := []; visited := ∅; line_leaders := [] |}
  | Some manager_id_int =>
      match find_row month_data manager_id_int with
      | None => Some {| queue := []; visited := ∅; line_leaders := [] |}
      | Some manager_row =>
          bfs_loop fuel month_data
            {| queue := [(manager_id_int, Full_Name manager_row)];
               visited := {[manager_id_int]};
               line_leaders := [] |}
      end
  end.

(** [_find_all_subordinate_line_leaders]: one iteration per row plus one is
    always enough (theorem [bfs_terminates]), so the default is never used. *)
Definition _find_all_subordinate_line_leaders (month_data : list Row)
    (manager_id : option Z) : list Row :=
  default [] (line_leaders <$> bfs_from (S (length month_data)) month_data manager_id).

(** ** Upper-management roll-up *)

(** The loop of [_calculate_line_leader_average_unified]; the accumulator is
    (total_incentive, receiving_count, total_count). *)
Fixpoint average_loop (leaders : list Row) (acc : float * Z * Z)
  : float * Z * Z :=
  match leaders with
  | [] => acc
  | leader :: rest =>
      let '(total_incentive, receiving_count, total_count) := acc in
      let current_incentive := Incentive leader in
      if 0 <? current_incentive
      then average_loop rest
             (add_incentive total_incentive leader,
              receiving_count + 1, total_count + 1)
      else average_loop rest (total_incentive, receiving_count, total_count + 1)
  end.

Definition _calculate_line_leader_average_unified (leaders : list Row) : float :=
  match leaders with
  | [] => 0%float
  | _ =>
      let '(total_incentive, receiving_count, _) :=
        average_loop leaders (0%float, 0, 0) in
      if 0 <? receiving_count
      then (total_incentive / float_of_Z receiving_count)%float
      else 0%float
  end.

(** [all_line_leaders[all_line_leaders[incentive_col] > 0]] *)
Definition receiving_line_leaders (month_data : list Row) : list Row :=
  List.filter
    (λ r, String.eqb (ROLE_TYPE_STD r) "TYPE-1"
          && String.eqb (QIP_POSITION_1ST_NAME r) "LINE LEADER"
          && (0 <? Incentive r))
    month_data.

(** [int(receiving_line_leaders[incentive_col].mean())]: the column sum over
    the row count, in double precision. *)
Definition pooled_average (receiving : list Row) : Z :=
  let total := float_total receiving in
  let count := Z.of_nat (length receiving) in
  py_int (total / float_of_Z count)%float.

(** The loop body of [calculate_head_incentive]. *)
Definition head_incentive (month_data : list Row) (row : Row) : Z :=
  if 0 <? Incentive row then Incentive row
  else if attendance_fail row then 0
  else
    let head_id := Employee_No row in
    let leaders := _find_all_subordinate_line_leaders month_data head_id in
    let avg_incentive :=
      match leaders with
      | [] => 0%float
      | _ => _calculate_line_leader_average_unified leaders
      end in
    if (0 <? avg_incentive)%float then py_int (avg_incentive * 2)%float
    else
      let receiving := receiving_line_leaders month_data in
      if (0 <? length receiving)%nat
      then pooled_average receiving * 2
      else 0.

(** What [position_matrix['positions'][code]['incentive_amount']] (a JSON
    file) holds for the manager's position code. *)
Record incentive_config := {
  json_calculation_method : string;
  json_multiplier : option float;
  json_min : Z;
  json_max : option Z
}.

(** The branch [line_leaders / pooled fallback] shared by the manager tiers;
    [otherwise] is the value taken when no line leader receives anything. *)
Definition manager_rollup (month_data : list Row) (manager_id : option Z)
    (multiplier : float) (otherwise : Z) : Z :=
  match _find_all_subordinate_line_leaders month_data manager_id with
  | [] =>
      let receiving := receiving_line_leaders month_data in
      if (0 <? length receiving)%nat
      then py_int (float_of_Z (pooled_average receiving) * multiplier)%float
      else otherwise
  | leaders =>
      py_int (_calculate_line_leader_average_unified leaders * multiplier)%float
  end.

(** The loop body of [calculate_managers_by_manual_logic_fixed] for a tier
    whose configured multiplier is [config_multiplier]. *)
Definition manager_incentive (config_multiplier : float) (cfg : incentive_config)
    (month_data : list Row) (row : Row) : Z :=
  if 0 <? Incentive row then Incentive row
  else
    let manager_id := Employee_No row in
    let condition_1_pass :=
      cell_in row "cond_1_attendance_rate" ["PASS"; "NOT_APPLICABLE"] in
    let condition_2_pass := cell_eq row "cond_2_unapproved_absence" "PASS" in
    let condition_3_pass := cell_eq row "cond_3_actual_working_days" "PASS" in
    let condition_4_pass :=
      cell_in row "cond_4_minimum_days" ["PASS"; "NOT_APPLICABLE"] in
    if negb (condition_1_pass && condition_2_pass
             && condition_3_pass && condition_4_pass)
    then 0
    else if String.eqb (json_calculation_method cfg) "line_leader_average"
    then manager_rollup month_data manager_id
           (default config_multiplier (json_multiplier cfg)) 0
    else
      let min_amt := json_min cfg in
      let max_amt := default min_amt (json_max cfg) in
      if (0 <? min_amt) && (min_amt =? max_amt) then min_amt
      else manager_rollup month_data manager_id config_multiplier
             (if 0 <? min_amt then min_amt else 0).

(** ** Location reconciliation *)

Record building_row := {
  b_Employee_No : string;
  b_Full_Name : string;
  BUILDING : string;        (* [str(row.get('BUILDING', ''))] *)
  AQL_BUILDING : string     (* [str(row.get('AQL_BUILDING', ''))] *)
}.

Record mismatch := {
  mm_Employee_No : string;
  mm_Full_Name : string;
  Basic_BUILDING : string;
  mm_AQL_BUILDING : string;
  Final_BUILDING : string
}.

(** [strip] followed by the blank test of the consolidation loop. *)
Definition clean_building (present : bool) (raw : string) : string :=
  let b := if present then strip raw else "" in
  if str_in b [""; "nan"; "NaN"; "None"] then "" else b.

(** One iteration of the loop of [_process_building_consolidation]:
    the final building and the mismatch record appended, if any. *)
Definition consolidate_row (has_basic_building has_aql_building : bool)
    (row : building_row) : string * option mismatch :=
  let basic_bldg := clean_building has_basic_building (BUILDING row) in
  let aql_bldg := clean_building has_aql_building (AQL_BUILDING row) in
  if negb (String.eqb basic_bldg "") && negb (String.eqb aql_bldg "") then
    if String.eqb basic_bldg aql_bldg then (basic_bldg, None)
    else
      (basic_bldg,
       Some {| mm_Employee_No := b_Employee_No row;
               mm_Full_Name := b_Full_Name row;
               Basic_BUILDING := basic_bldg;
               mm_AQL_BUILDING := aql_bldg;
               Final_BUILDING := basic_bldg |})
  else if negb (String.eqb basic_bldg "") then (basic_bldg, None)
  else if negb (String.eqb aql_bldg "") then (aql_bldg, None)
  else ("", None).

(** [_process_building_consolidation]: the final [BUILDING] column and
    [building_mismatch_list]. *)
Definition _process_building_consolidation
    (has_basic_building has_aql_building : bool) (month_data : list building_row)
  : list string * list mismatch :=
  if negb has_basic_building && negb has_aql_building
  then (map (λ _, "") month_data, [])
  else
    let results := map (consolidate_row has_basic_building has_aql_building) month_data in
    (map fst results, omap snd results).

(** [normalize_building] of [generate_building_review_analysis]:
    the first character, upper-cased. *)
Definition normalize_building (bldg : string) : option string :=
  if str_in (strip bldg) [""; "nan"; "NaN"; "None"; "N/A"] then None
  else
    match bldg with
    | String c _ => Some (String (upper_char c) EmptyString)
    | EmptyString => None
    end.

(** Case 3 of [generate_building_review_analysis] (data-source mismatch) for
    a row that is not filtered out as resigned: the pair of raw values
    reported, if any. *)
Definition data_source_mismatch (row : building_row) : option (string * string) :=
  let hr_building := clean_building true (BUILDING row) in
  let aql_building := clean_building true (AQL_BUILDING row) in
  if negb (String.eqb hr_building "") && negb (String.eqb aql_building "") then
    match normalize_building hr_building, normalize_building aql_building with
    | Some hr_norm, Some aql_norm =>
        if negb (String.eqb hr_norm aql_norm)
        then Some (hr_building, aql_building) else None
    | _, _ => None
    end
  else None.

(** The row as the review analysis sees it: by then the [BUILDING] column
    holds the consolidated value. *)
Definition after_consolidation (has_basic_building has_aql_building : bool)
    (row : building_row) : building_row :=
  {| b_Employee_No := b_Employee_No row;
     b_Full_Name := b_Full_Name row;
     BUILDING := fst (consolidate_row has_basic_building has_aql_building row);
     AQL_BUILDING := if has_aql_building then AQL_BUILDING row else "" |}.

(** ** Vocabulary used to state the properties *)

(** Condition [c] counts as passed for the unified evaluator. *)
Definition cond_passes (row : gmap string cell) (c : Z) : bool :=
  match condition_columns c with
  | None => true
  | Some col_name => str_in (condition_value row col_name) pass_values
  end.

(** The cell of condition [i] in a row of Excel condition columns. *)
Definition cond_cell (row : gmap string cell) (i : Z) : option cell :=
  condition_columns i ≫= (λ cond_col, row !! cond_col).

(** Condition [i] enters the applicable count of the Excel aggregate. *)
Definition counted_cond (row : gmap string cell) (i : Z) : bool :=
  match cond_cell row i with
  | Some result => is_counted result
  | None => false
  end.

(** Condition [i] enters the passed count of the Excel aggregate. *)
Definition passed_cond (row : gmap string cell) (i : Z) : bool :=
  counted_cond row i && bool_decide (cond_cell row i = Some (Some "PASS")).

(** The TYPE-1 direct reports of a leader that are found in the table. *)
Definition type1_reports (month_data : list Row) (subordinates : list Z) : list Row :=
  List.filter (λ r, String.eqb (ROLE_TYPE_STD r) "TYPE-1")
    (omap (find_row month_data) subordinates).

(** The rows among [rows] holding a positive amount. *)
Definition receivers (rows : list Row) : list Row :=
  List.filter (λ r, 0 <? Incentive r) rows.

Definition total_incentive (rows : list Row) : Z :=
  foldr Z.add 0 (map Incentive rows).

(** The line-leader formula as the specification words it: all direct
    reports found in the table, whatever their role type, and no rounding. *)
Definition spec_line_leader_amount (month_data : list Row) (subordinates : list Z) : Q :=
  let reports := omap (find_row month_data) subordinates in
  let total := total_incentive reports in
  let received := Z.of_nat (length (receivers reports)) in
  let count := Z.of_nat (length reports) in
  (inject_Z total * (12 # 100) * (inject_Z received / inject_Z count))%Q.

(** The order in which the traversal takes employees out of the queue
    (a ghost copy of [bfs_loop] that records each [current_id]). *)
Fixpoint bfs_order (fuel : nat) (month_data : list Row) (st : bfs_state) : list Z :=
  match queue st with
  | [] => []
  | (current_id, current_name) :: rest =>
      match fuel with
      | O => []
      | S fuel' =>
          current_id ::
          bfs_order fuel' month_data
            (foldl (scan_row current_id current_name)
               {| queue := rest; visited := visited st;
                  line_leaders := line_leaders st |}
               month_data)
      end
  end.

(** Rows whose id the traversal has not reached yet. *)
Definition unvisited (month_data : list Row) (seen : gset Z) : list Row :=
  List.filter
    (λ r, match Employee_No r with
          | Some id => bool_decide (id ∉ seen)
          | None => false
          end)
    month_data.

(** What the traversal maintains: [popped] are the ids already taken out of
    the queue, [V0] the ids seen before the traversal started. *)
Definition bfs_inv (month_data : list Row) (V0 : gset Z) (popped : list Z)
    (st : bfs_state) : Prop :=
  NoDup (popped ++ map fst (queue st))
  ∧ (∀ x, x ∈ popped ++ map fst (queue st) → x ∈ visited st)
  ∧ V0 ⊆ visited st
  ∧ NoDup (map Employee_No (line_leaders st))
  ∧ (∀ r, r ∈ line_leaders st →
          r ∈ month_data
          ∧ ∃ id, Employee_No r = Some id ∧ id ∈ visited st ∧ id ∉ V0).

(** The quantity that decreases at every iteration of the [while] loop. *)
Definition bfs_measure (month_data : list Row) (st : bfs_state) : nat :=
  (length (queue st) + length (unvisited month_data (visited st)))%nat.

(** The initial state of the traversal and its visiting order. *)
Definition bfs_init (manager_id_int : Z) (manager_name : string) : bfs_state :=
  {| queue := [(manager_id_int, manager_name)];
     visited := {[manager_id_int]};
     line_leaders := [] |}.

Definition visit_order (month_data : list Row) (manager_id : option Z) : list Z :=
  match manager_id ≫= find_row month_data with
  | Some manager_row =>
      match manager_id with
      | Some manager_id_int =>
          bfs_order (S (length month_data)) month_data
            (bfs_init manager_id_int (Full_Name manager_row))
      | None => []
      end
  | None => []
  end.

(** ** Concrete inputs used in examples *)

(** A row with the given id, name, role type, position, boss id and current
    amount; still employed, not on protected leave, attendance cells PASS. *)
Definition mk_row (id : Z) (name role position : string) (boss : option Z)
    (incentive : Z) : Row :=
  {| Employee_No := Some id;
     Full_Name := name;
     ROLE_TYPE_STD := role;
     QIP_POSITION_1ST_NAME := position;
     MST_direct_boss_name := boss;
     direct_boss_name := None;
     Stop_working_Date := None;
     pregnant := None;
     Incentive := incentive;
     Continuous_FAIL := "NO";
     cond_cells :=
       <["cond_1_attendance_rate" := Some "PASS"]>
       (<["cond_2_unapproved_absence" := Some "PASS"]>
       (<["cond_3_actual_working_days" := Some "PASS"]>
       (<["cond_4_minimum_days" := Some "PASS"]> ∅))) |}.

(** A reporting line with a cycle (1 reports to 2, 2 reports to 1), a
    duplicated row for employee 3 and a self-reference (4 reports to 4). *)
Definition cyclic_table : list Row :=
  [ mk_row 1 "A" "TYPE-1" "SUPERVISOR" (Some 2) 0;
    mk_row 2 "B" "TYPE-1" "GROUP LEADER" (Some 1) 0;
    mk_row 3 "L" "TYPE-1" "LINE LEADER" (Some 2) 200000;
    mk_row 3 "L" "TYPE-1" "LINE LEADER" (Some 1) 200000;
    mk_row 4 "S" "TYPE-1" "SUPERVISOR" (Some 4) 0 ].

(** A manager (10) whose only subordinate line leader (11) received
    nothing, while a line leader elsewhere (12) received 200,000. *)
Definition rollup_table : list Row :=
  [ mk_row 10 "M" "TYPE-1" "MANAGER" None 0;
    mk_row 11 "L1" "TYPE-1" "LINE LEADER" (Some 10) 0;
    mk_row 12 "L2" "TYPE-1" "LINE LEADER" (Some 99) 200000 ].

Definition line_leader_average_config : incentive_config :=
  {| json_calculation_method := "line_leader_average";
     json_multiplier := None;
     json_min := 0;
     json_max := None |}.

(** A line leader (20) with a TYPE-1 report paid 150,000 (21) and a TYPE-2
    report whose amount is not computed yet (22). *)
Definition line_table : list Row :=
  [ mk_row 20 "LL" "TYPE-1" "LINE LEADER" None 0;
    mk_row 21 "a" "TYPE-1" "ASSEMBLY INSPECTOR" (Some 20) 150000;
    mk_row 22 "b" "TYPE-2" "ASSEMBLY INSPECTOR" (Some 20) 0 ].

Definition line_mapping : gmap Z (list Z) := {[ 20 := [21; 22] ]}.

Definition no_leading_space (s : string) : Prop :=
  match s with
  | EmptyString => True
  | String c _ => is_space c = false
  end.

(** More concrete inputs. *)

Definition row_all_pass : gmap string cell :=
  <["cond_1_attendance_rate" := Some "PASS"]>
  (<["cond_2_unapproved_absence" := Some "PASS"]>
  (<["cond_3_actual_working_days" := Some "PASS"]>
  (<["cond_4_minimum_days" := Some "PASS"]> ∅))).

Definition row_one_fail : gmap string cell :=
  <["cond_2_unapproved_absence" := Some "FAIL"]> row_all_pass.

(** An employee on approved leave for the whole period: no expected working
    day, no unapproved absence, no worked day. *)
Definition on_leave : measures :=
  {| attendance_rate := 0;
     total_days := 20;
     approved_leave := 20;
     unapproved_absence := Some 0%Q;
     actual_working_days := 0;
     aql_fail := 0;
     continuous_fail := "NO";
     team_aql_fail := false;
     reject_rate := 0;
     prs_pass_rate := 0;
     prs_qty := 0 |}.

Definition on_leave_cells : gmap string cell :=
  condition_cells 2025 default_thresholds [1; 2; 3; 4] on_leave.

Definition row_A2_A : building_row :=
  {| b_Employee_No := "620080295";
     b_Full_Name := "NGUYEN VAN A";
     BUILDING := "A2";
     AQL_BUILDING := "A" |}.

Definition row_A_B : building_row :=
  {| b_Employee_No := "620080296";
     b_Full_Name := "TRAN THI B";
     BUILDING := " A ";
     AQL_BUILDING := "B" |}.

(* ===================================================================== *)
(** * Part II: theorems *)
(* ===================================================================== *)

(** ** The 100% rule on the unified TYPE-1 path *)

Lemma evaluate_loop_step (row : gmap string cell) c conds passed failed det :
  evaluate_loop row (c :: conds) (passed, failed, det)
  = if cond_passes row c
    then evaluate_loop row conds (passed ++ [c], failed, det ++ [(c, "PASS")])
    else evaluate_loop row conds (passed, failed ++ [c], det ++ [(c, "FAIL")]).
Proof.
  unfold cond_passes. cbn [evaluate_loop].
  destruct (condition_columns c) as [col|]; [|reflexivity].
  destruct (str_in (condition_value row col) pass_values); reflexivity.
Qed.

Lemma evaluate_loop_spec (row : gmap string cell) (conds : list Z) :
  ∀ passed failed det,
    evaluate_loop row conds (passed, failed, det)
    = (passed ++ List.filter (cond_passes row) conds,
       failed ++ List.filter (λ c, negb (cond_passes row c)) conds,
       det ++ map (λ c, (c, pass_if (cond_passes row c))) conds).
Proof.
  induction conds as [|c conds IH]; intros passed failed det.
  - cbn. by rewrite !app_nil_r.
  - rewrite evaluate_loop_step. cbn [List.filter map].
    destruct (cond_passes row c); cbn [negb pass_if];
      rewrite IH, <- !app_assoc; reflexivity.
Qed.

Lemma evaluate_unified_spec (row : gmap string cell) (category : position_category) :
  let r := _evaluate_type1_conditions_unified row category in
  let applicable := _get_applicable_conditions category in
  applicable_conditions r = applicable
  ∧ passed_conditions r = List.filter (cond_passes row) applicable
  ∧ failed_conditions r = List.filter (λ c, negb (cond_passes row c)) applicable
  ∧ all_pass r = forallb (cond_passes row) applicable
  ∧ pass_rate r = len_ratio (List.filter (cond_passes row) applicable) applicable.
Proof.
  unfold _evaluate_type1_conditions_unified.
  rewrite evaluate_loop_spec; simpl.
  repeat split; try reflexivity.
  induction (_get_applicable_conditions category) as [|c l IH]; simpl; [done|].
  destruct (cond_passes row c); simpl; [exact IH | done].
Qed.

Lemma filter_partition_length {A} (f : A → bool) (l : list A) :
  (length (List.filter f l) + length (List.filter (λ x, negb (f x)) l))%nat = length l.
Proof.
  induction l as [|x l IH]; simpl; [done|].
  destruct (f x); simpl; lia.
Qed.

Lemma positive_amount_all_pass category months cfa ok :
  0 < incentive_amount (_calculate_type1_incentive_by_category category months cfa ok)
  → ok = true.
Proof.
  unfold _calculate_type1_incentive_by_category.
  destruct ok; simpl; [done | lia].
Qed.

(** C1. On the unified TYPE-1 path an employee's amount is positive only if
    the number of passed conditions equals the number of applicable ones, and
    a single failing applicable condition gives amount 0 and continuous-month
    count 0 for the period. *)
Theorem hundred_percent_rule (row : gmap string cell) (prev : option Z)
    (category : position_category) (cfa : bool) :
  let r := calculate_type1_row row prev category cfa in
  (0 < incentive_amount (outcome r) →
     length (passed_conditions (condition_eval r))
     = length (applicable_conditions (condition_eval r)))
  ∧ (∀ c, c ∈ _get_applicable_conditions category →
          cond_passes row c = false →
          incentive_amount (outcome r) = 0
          ∧ Continuous_Months r = 0
          ∧ continuous_months (outcome r) = 0).
Proof.
  intros r.
  destruct (evaluate_unified_spec row category) as (Happ & Hpass & Hfail & Hall & _).
  split.
  - intros Hpos. apply positive_amount_all_pass in Hpos.
    subst r; simpl in *.
    rewrite Hall in Hpos. rewrite Happ, Hpass.
    pose proof (filter_partition_length (cond_passes row)
                  (_get_applicable_conditions category)) as Hlen.
    assert (List.filter (λ c, negb (cond_passes row c))
              (_get_applicable_conditions category) = []) as Hnil.
    { clear -Hpos. induction (_get_applicable_conditions category) as [|c l IH];
        simpl in *; [done|].
      destruct (cond_passes row c); simpl in *; [auto | done]. }
    rewrite Hnil in Hlen. simpl in Hlen. lia.
  - intros c Hin Hc.
    assert (all_pass (_evaluate_type1_conditions_unified row category) = false) as Hno.
    { rewrite Hall. apply not_true_is_false. intros Hf.
      rewrite forallb_forall in Hf.
      apply list_elem_of_In in Hin. specialize (Hf c Hin). congruence. }
    subst r. unfold calculate_type1_row; simpl. rewrite Hno. simpl.
    unfold _calculate_continuous_months_type1_unified,
      _calculate_type1_incentive_by_category; simpl. done.
Qed.

Lemma hundred_percent_rule_witness :
  (0 < incentive_amount (outcome (calculate_type1_row row_all_pass (Some 300000) OTHER false))
   ∧ length (passed_conditions
               (condition_eval (calculate_type1_row row_all_pass (Some 300000) OTHER false)))
     = 4%nat)
  ∧ (incentive_amount (outcome (calculate_type1_row row_one_fail (Some 300000) OTHER false)) = 0
     ∧ Continuous_Months (calculate_type1_row row_one_fail (Some 300000) OTHER false) = 0).
Proof.
  split.
  - split; [by vm_compute|].
    apply (proj1 (hundred_percent_rule row_all_pass (Some 300000) OTHER false)).
    by vm_compute.
  - destruct (proj2 (hundred_percent_rule row_one_fail (Some 300000) OTHER false) 2)
      as (H1 & H2 & _).
    + apply list_elem_of_In. simpl. tauto.
    + by vm_compute.
    + split; assumption.
Defined.

(** ** Reverse derivation of the continuous-month count *)

Lemma months_1_to_11 (n : Z) :
  1 ≤ n ≤ 11 →
  n = 1 ∨ n = 2 ∨ n = 3 ∨ n = 4 ∨ n = 5 ∨ n = 6 ∨ n = 7 ∨ n = 8 ∨ n = 9
  ∨ n = 10 ∨ n = 11.
Proof. lia. Qed.

Lemma months_1_to_15 (n : Z) :
  1 ≤ n ≤ 15 →
  (1 ≤ n ≤ 11) ∨ n = 12 ∨ n = 13 ∨ n = 14 ∨ n = 15.
Proof. lia. Qed.

Ltac each_month H :=
  repeat (destruct H as [H|H]; [subst|]); [..|subst].

(** The table is non-decreasing on 1..15 and strictly increasing on 1..12. *)
Lemma progression_table_unique_below_12 (n m : Z) :
  1 ≤ n ≤ 11 → 1 ≤ m ≤ 15 →
  dict_get progression_table m 0 = dict_get progression_table n 0 → m = n.
Proof.
  intros Hn Hm.
  apply months_1_to_11 in Hn.
  apply months_1_to_15 in Hm.
  destruct Hm as [Hm|Hm]; [apply months_1_to_11 in Hm|];
    each_month Hn; each_month Hm; vm_compute; congruence.
Qed.

(** C2, as stated, fails for the specialist category: an AQL inspector paid
    850,000 (the standard table's month 10) is read as month 1 plus the
    certificate bonus, so the new count is 2. *)
Lemma reconstruction_aql_counterexample :
  dict_get progression_table 10 0 = 850000
  ∧ _reverse_calculate_months_from_incentive_unified (Some 850000) AQL_INSPECTOR = 1
  ∧ _calculate_continuous_months_type1_unified true AQL_INSPECTOR (Some 850000) = 2
  ∧ ¬ (_reverse_calculate_months_from_incentive_unified (Some 850000) AQL_INSPECTOR = 10
       ∧ _calculate_continuous_months_type1_unified true AQL_INSPECTOR (Some 850000)
         = 10 + 1).
Proof.
  repeat split; try by vm_compute.
  intros [H _]. vm_compute in H. congruence.
Qed.

(** C2 (amended). For every employee of a standard category (any category
    but the AQL inspector) whose eligibility passes and whose previous amount
    is the table amount of a month n between 1 and 11 (each such amount occurs
    once in the table), the reverse derivation returns n, the new count is
    n + 1 (below the cap of 15) and the amount paid is the table amount of
    month n + 1; previous amount 300,000 gives count 4 and the amount of
    month 4.  For every category, a previous amount that is zero or absent
    gives count 1. *)
Theorem reconstruction_consistency_standard
    (category : position_category) (n : Z) (cfa : bool) :
  category ≠ AQL_INSPECTOR →
  1 ≤ n ≤ 11 →
  let previous_amount := dict_get progression_table n 0 in
  _reverse_calculate_months_from_incentive_unified (Some previous_amount) category = n
  ∧ _calculate_continuous_months_type1_unified true category (Some previous_amount)
    = Z.min (n + 1) 15
  ∧ Z.min (n + 1) 15 = n + 1
  ∧ incentive_amount
      (_calculate_type1_incentive_by_category category (n + 1) cfa true)
    = dict_get progression_table (n + 1) 0
  ∧ (∀ m, 1 ≤ m ≤ 15 → dict_get progression_table m 0 = previous_amount → m = n)
  ∧ _calculate_continuous_months_type1_unified true category (Some 300000) = 4
  ∧ incentive_amount (_calculate_type1_incentive_by_category category 4 cfa true)
    = dict_get progression_table 4 0
  ∧ (∀ c, _calculate_continuous_months_type1_unified true c None = 1
          ∧ _calculate_continuous_months_type1_unified true c (Some 0) = 1).
Proof.
  intros Hcat Hn previous_amount.
  assert (∀ m, 1 ≤ m ≤ 15 → dict_get progression_table m 0 = previous_amount → m = n)
    as Huniq.
  { intros m Hm. by apply progression_table_unique_below_12. }
  subst previous_amount.
  apply months_1_to_11 in Hn.
  repeat split; try exact Huniq; try (intros; reflexivity); clear Huniq;
    try lia;
    destruct category; try congruence;
    each_month Hn; reflexivity.
Qed.

Lemma reconstruction_consistency_standard_witness :
  _reverse_calculate_months_from_incentive_unified (Some 300000) ASSEMBLY_INSPECTOR = 3
  ∧ _calculate_continuous_months_type1_unified true ASSEMBLY_INSPECTOR (Some 300000) = 4.
Proof.
  assert (ASSEMBLY_INSPECTOR ≠ AQL_INSPECTOR) as Hcat by discriminate.
  assert (1 ≤ 3 ≤ 11) as Hn by lia.
  destruct (reconstruction_consistency_standard ASSEMBLY_INSPECTOR 3 false Hcat Hn)
    as (H1 & H2 & _).
  split; [exact H1 | exact H2].
Defined.

Lemma exact_match_first (items : list (Z * Z)) (a m : Z) :
  exact_match items a = Some m →
  ∃ pre post, items = pre ++ (m, a) :: post ∧ Forall (λ kv, kv.2 ≠ a) pre.
Proof.
  induction items as [|[k v] items IH]; simpl; [done|].
  destruct (Z.eqb_spec a v) as [->|Hne].
  - intros [= ->]. exists [], items. split; [done | constructor].
  - intros H. destruct (IH H) as (pre & post & -> & Hpre).
    exists ((k, v) :: pre), post. split; [done|].
    constructor; [simpl; congruence | done].
Qed.

(** C10. On the plateau of the standard table (months 12 to 15 all pay
    1,000,000) the reverse look-up returns 12, the first and smallest month
    with that amount in scan order, so an eligible standard-category employee
    previously paid the capped amount gets continuous-month count 13. *)
Theorem reverse_plateau_smallest_month (category : position_category) :
  category ≠ AQL_INSPECTOR →
  (∀ m, 12 ≤ m ≤ 15 → dict_get progression_table m 0 = 1000000)
  ∧ (∀ m, 1 ≤ m ≤ 15 → dict_get progression_table m 0 = 1000000 → 12 ≤ m)
  ∧ exact_match progression_table 1000000 = Some 12
  ∧ (∃ pre post, progression_table = pre ++ (12, 1000000) :: post
                 ∧ Forall (λ kv, kv.2 ≠ 1000000) pre)
  ∧ _reverse_calculate_months_from_incentive_unified (Some 1000000) category = 12
  ∧ _calculate_continuous_months_type1_unified true category (Some 1000000) = 13.
Proof.
  intros Hcat.
  split; [|split; [|split; [|split; [|split]]]].
  - intros m Hm.
    assert (m = 12 ∨ m = 13 ∨ m = 14 ∨ m = 15) as H by lia.
    each_month H; reflexivity.
  - intros m Hm Heq.
    apply months_1_to_15 in Hm. destruct Hm as [Hm|Hm]; [|lia].
    apply months_1_to_11 in Hm. each_month Hm; vm_compute in Heq; congruence.
  - reflexivity.
  - by apply exact_match_first.
  - destruct category; try congruence; reflexivity.
  - destruct category; try congruence; reflexivity.
Qed.

Lemma reverse_plateau_smallest_month_witness :
  _calculate_continuous_months_type1_unified true MODEL_MASTER (Some 1000000) = 13.
Proof.
  assert (MODEL_MASTER ≠ AQL_INSPECTOR) as Hcat by discriminate.
  exact (proj2 (proj2 (proj2 (proj2 (proj2
           (reverse_plateau_smallest_month MODEL_MASTER Hcat)))))).
Defined.

(** ** Previous amounts that match no table entry *)

Lemma legacy_scan_no_match (items : list (Z * Z)) (a : Z) :
  Forall (λ kv, kv.2 ≠ a) items → legacy_scan items a = None.
Proof.
  induction 1 as [|[k v] items Hne _ IH]; simpl; [done|].
  destruct (k =? 0); [done|].
  simpl in Hne. destruct (Z.eqb_spec a v); [congruence | done].
Qed.

Lemma exact_match_no_match (items : list (Z * Z)) (a : Z) :
  Forall (λ kv, kv.2 ≠ a) items → exact_match items a = None.
Proof.
  induction 1 as [|[k v] items Hne _ IH]; simpl; [done|].
  simpl in Hne. destruct (Z.eqb_spec a v); [congruence | done].
Qed.

(** What the closest-amount loop returns: the running minimum of the
    distances, with a month that attains it. *)
Lemma closest_scan_spec (items : list (Z * Z)) (a : Z) :
  ∀ c0 d0 c d,
    closest_scan items a c0 d0 = (c, d) →
    (d = None ↔ d0 = None ∧ items = [])
    ∧ ∀ dd, d = Some dd →
        Forall (λ kv, dd ≤ Z.abs (a - kv.2)) items
        ∧ (∀ d0', d0 = Some d0' → dd ≤ d0')
        ∧ ((c = c0 ∧ d0 = Some dd)
           ∨ ∃ v, (c, v) ∈ items ∧ dd = Z.abs (a - v)).
Proof.
  induction items as [|[k v] items IH]; intros c0 d0 c d; simpl.
  - intros [= <- <-]. split; [split; [intros ->; done | intros [-> _]; done]|].
    intros dd ->. split; [constructor|]. split; [|by left].
    intros d0' [= <-]. lia.
  - assert (∀ d1 : Z,
              (d = None ↔ (Some d1 = None ∧ items = [])) →
              ∀ d2 : option Z, (d = None ↔ (d2 = None ∧ (k, v) :: items = [])))
      as Hcons.
    { intros d1 Hnone d2. split.
      - intros Hd. by destruct (proj1 Hnone Hd).
      - by intros [_ ?]. }
    destruct d0 as [m|]; simpl.
    + destruct (Z.ltb_spec (Z.abs (a - v)) m) as [Hlt|Hge]; intros Hscan;
        destruct (IH _ _ _ _ Hscan) as [Hnone Hsome];
        (split; [exact (Hcons _ Hnone _)|]);
        intros dd ->; destruct (Hsome dd eq_refl) as (Hall & Hle & Hwho).
      * specialize (Hle _ eq_refl).
        split; [constructor; [simpl; lia | done]|].
        split; [intros d0' [= <-]; lia|].
        right. destruct Hwho as [[-> [= <-]]|(v' & Hin & ->)].
        -- exists v. split; [left | done].
        -- exists v'. split; [by right | done].
      * specialize (Hle _ eq_refl).
        split; [constructor; [simpl; lia | done]|].
        split; [intros d0' [= <-]; lia|].
        destruct Hwho as [[-> [= <-]]|(v' & Hin & ->)]; [by left|].
        right. exists v'. split; [by right | done].
    + intros Hscan. destruct (IH _ _ _ _ Hscan) as [Hnone Hsome].
      split; [exact (Hcons _ Hnone _)|].
      intros dd ->; destruct (Hsome dd eq_refl) as (Hall & Hle & Hwho).
      specialize (Hle _ eq_refl).
      split; [constructor; [simpl; lia | done]|].
      split; [done|].
      right. destruct Hwho as [[-> [= <-]]|(v' & Hin & ->)].
      * exists v. split; [left | done].
      * exists v'. split; [by right | done].
Qed.

(** C3, as stated, fails on the unified look-up: 960,000 matches no table
    entry, yet the result is month 11 (the closest amount, within 10%), the new
    count is 12, and nothing is printed. *)
Lemma reverse_unified_tolerance_counterexample :
  0 < 960000
  ∧ Forall (λ kv, kv.2 ≠ 960000) progression_table
  ∧ _reverse_calculate_months_from_incentive_unified_trace (Some 960000) OTHER
    = (11, [])
  ∧ _calculate_continuous_months_type1_unified true OTHER (Some 960000) = 12
  ∧ ¬ (∃ w ws, _reverse_calculate_months_from_incentive_unified_trace
                 (Some 960000) OTHER = (1, w :: ws)).
Proof.
  split; [lia|]. split; [|split; [|split]].
  - repeat constructor; simpl; lia.
  - reflexivity.
  - reflexivity.
  - intros (w & ws & H). vm_compute in H. congruence.
Qed.

(** C3 (amended). For every positive previous amount that matches no entry
    of the progression table exactly, neither look-up raises.  The look-up of
    [DataProcessor] falls back to 1 month and prints its two-line warning.
    The unified look-up (standard categories) prints nothing: it returns the
    month of a closest table amount when the distance to it is at most 10% of
    the previous amount, and 1 otherwise; the new count is that result plus
    one. *)
Theorem reverse_without_exact_match
    (table : list (Z * Z)) (category : position_category) (a : Z) :
  0 < a →
  Forall (λ kv, kv.2 ≠ a) table →
  Forall (λ kv, kv.2 ≠ a) progression_table →
  category ≠ AQL_INSPECTOR →
  _reverse_calculate_months_from_incentive table (Some a)
  = (1, [AmountNotInProgressionTable a; ManualVerificationRecommended])
  ∧ ∃ closest v,
      (closest, v) ∈ progression_table
      ∧ Forall (λ kv, Z.abs (a - v) ≤ Z.abs (a - kv.2)) progression_table
      ∧ _reverse_calculate_months_from_incentive_unified_trace (Some a) category
        = (if within_tolerance (Some (Z.abs (a - v))) a then closest else 1, [])
      ∧ _calculate_continuous_months_type1_unified true category (Some a)
        = Z.min ((if within_tolerance (Some (Z.abs (a - v))) a
                  then closest else 1) + 1) 15.
Proof.
  intros Hpos Htable Hstd Hcat. split.
  - unfold _reverse_calculate_months_from_incentive.
    destruct (Z.leb_spec a 0); [lia|].
    by rewrite legacy_scan_no_match.
  - destruct (closest_scan progression_table a 1 None) as [c d] eqn:Hscan.
    destruct (closest_scan_spec _ _ _ _ _ _ Hscan) as [Hnone Hsome].
    destruct d as [dd|]; [|by destruct (proj1 Hnone eq_refl)].
    destruct (Hsome dd eq_refl) as (Hall & _ & Hwho).
    destruct Hwho as [[_ [=]]|(v & Hin & ->)].
    exists c, v. split; [done|]. split; [done|].
    assert (_reverse_calculate_months_from_incentive_unified (Some a) category
            = if within_tolerance (Some (Z.abs (a - v))) a then c else 1) as Hrev.
    { unfold _reverse_calculate_months_from_incentive_unified.
      destruct (Z.leb_spec a 0); [lia|].
      destruct (decide (category = AQL_INSPECTOR)); [done|].
      rewrite exact_match_no_match by done. by rewrite Hscan. }
    split.
    + unfold _reverse_calculate_months_from_incentive_unified_trace.
      by rewrite Hrev.
    + unfold _calculate_continuous_months_type1_unified.
      cbn [negb default from_option id].
      destruct (Z.leb_spec a 0); [lia|]. by rewrite Hrev.
Qed.

Lemma reverse_without_exact_match_witness :
  _reverse_calculate_months_from_incentive default_progression_table (Some 960000)
  = (1, [AmountNotInProgressionTable 960000; ManualVerificationRecommended])
  ∧ ∃ closest v,
      _reverse_calculate_months_from_incentive_unified_trace (Some 960000) OTHER
      = (if within_tolerance (Some (Z.abs (960000 - v))) 960000
         then closest else 1, []).
Proof.
  assert (0 < 960000) as Hpos by lia.
  assert (Forall (λ kv : Z * Z, kv.2 ≠ 960000) default_progression_table) as H1
    by (repeat constructor; simpl; lia).
  assert (Forall (λ kv : Z * Z, kv.2 ≠ 960000) progression_table) as H2
    by (repeat constructor; simpl; lia).
  assert (OTHER ≠ AQL_INSPECTOR) as Hcat by discriminate.
  destruct (reverse_without_exact_match default_progression_table OTHER 960000
              Hpos H1 H2 Hcat) as [Hlegacy (c & v & _ & _ & Hr & _)].
  split; [exact Hlegacy | by exists c, v].
Defined.

(** ** Not-applicable conditions and the pass ratio *)

Lemma count_conditions_step (row : gmap string cell) i conds a p :
  count_conditions row (i :: conds) a p
  = count_conditions row conds
      (if counted_cond row i then a + 1 else a)
      (if passed_cond row i then p + 1 else p).
Proof.
  cbn [count_conditions].
  unfold passed_cond, counted_cond, cond_cell.
  destruct (condition_columns i ≫= λ cond_col, row !! cond_col) as [result|];
    [|reflexivity].
  destruct (is_counted result); cbn [andb]; [|reflexivity].
  destruct (bool_decide (result = Some "PASS")) eqn:Hpass.
  - apply bool_decide_eq_true in Hpass. subst result.
    by rewrite bool_decide_eq_true_2.
  - apply bool_decide_eq_false in Hpass.
    rewrite bool_decide_eq_false_2 by congruence. reflexivity.
Qed.

Lemma count_conditions_spec (row : gmap string cell) (conds : list Z) :
  ∀ applicable_count passed_count,
    count_conditions row conds applicable_count passed_count
    = (applicable_count + Z.of_nat (length (List.filter (counted_cond row) conds)),
       passed_count + Z.of_nat (length (List.filter (passed_cond row) conds))).
Proof.
  induction conds as [|i conds IH]; intros a p.
  - cbn. f_equal; lia.
  - rewrite count_conditions_step, IH. cbn [List.filter].
    destruct (counted_cond row i), (passed_cond row i); cbn [length];
      f_equal; lia.
Qed.

Lemma months_1_to_10 (i : Z) :
  1 ≤ i ≤ 10 →
  i = 1 ∨ i = 2 ∨ i = 3 ∨ i = 4 ∨ i = 5 ∨ i = 6 ∨ i = 7 ∨ i = 8 ∨ i = 9 ∨ i = 10.
Proof. lia. Qed.

Lemma condition_columns_range (i : Z) (col : string) :
  condition_columns i = Some col → 1 ≤ i ≤ 10.
Proof.
  destruct (decide (1 ≤ i ≤ 10)) as [|Hout]; [done|].
  unfold condition_columns.
  destruct i as [|p|p]; [done| |done].
  do 4 (destruct p as [p|p|]; try done); lia.
Qed.

(** Every cell written for a condition outside the applicable set is
    [NOT_APPLICABLE]. *)
Lemma condition_cells_gate config_year th applicable m (i : Z) :
  1 ≤ i ≤ 10 →
  ∃ result,
    cond_cell (condition_cells config_year th applicable m) i
    = Some (if bool_decide (i ∈ applicable)
            then Some result else Some "NOT_APPLICABLE").
Proof.
  intros Hi. apply months_1_to_10 in Hi.
  unfold cond_cell, condition_cells, gated.
  each_month Hi; cbn [condition_columns mbind option_bind];
    repeat (rewrite lookup_insert_ne by done);
    rewrite lookup_insert_eq; eauto.
Qed.

Lemma cond_passes_agree (row row' : gmap string cell) (conds : list Z) :
  (∀ c col, c ∈ conds → condition_columns c = Some col → row' !! col = row !! col) →
  ∀ c, c ∈ conds → cond_passes row' c = cond_passes row c.
Proof.
  intros Hagree c Hc. unfold cond_passes.
  destruct (condition_columns c) as [col|] eqn:Hcol; [|done].
  unfold condition_value. by rewrite (Hagree c col Hc Hcol).
Qed.

Lemma evaluate_loop_agree (row row' : gmap string cell) (conds : list Z) :
  (∀ c, c ∈ conds → cond_passes row' c = cond_passes row c) →
  ∀ acc, evaluate_loop row' conds acc = evaluate_loop row conds acc.
Proof.
  induction conds as [|c conds IH]; intros Hagree [[passed failed] det]; [done|].
  rewrite !evaluate_loop_step.
  rewrite (Hagree c) by left.
  destruct (cond_passes row c); apply IH; intros c' Hc'; apply Hagree; by right.
Qed.

(** C4, as stated, fails on the unified evaluator: condition 1 of this
    employee is not-applicable, yet it is listed among the passed conditions
    and counted in the denominator (2 of 4), whereas the Excel aggregate on
    the same cells counts 1 of 3. *)
Lemma not_applicable_counted_counterexample :
  cond_cell on_leave_cells 1 = Some (Some "NOT_APPLICABLE")
  ∧ passed_conditions (_evaluate_type1_conditions_unified on_leave_cells OTHER) = [1; 2]
  ∧ applicable_conditions (_evaluate_type1_conditions_unified on_leave_cells OTHER)
    = [1; 2; 3; 4]
  ∧ pass_rate (_evaluate_type1_conditions_unified on_leave_cells OTHER) = 0.5%float
  ∧ conditions_applicable (aggregate_conditions on_leave_cells) = 3
  ∧ conditions_passed (aggregate_conditions on_leave_cells) = 1
  ∧ ¬ (1 ∉ passed_conditions (_evaluate_type1_conditions_unified on_leave_cells OTHER)).
Proof.
  repeat split; try by vm_compute.
  intros H. apply H. vm_compute. left.
Qed.

(** C4 (amended). In the Excel aggregate (applicable count, passed count,
    pass rate) a not-applicable cell enters neither count, every condition
    outside the position's applicable set is written as not-applicable, and
    so only applicable conditions are counted.  The unified evaluator takes
    its all-pass decision and its pass rate from the cells of the category's
    applicable conditions only; a not-applicable value read for one of them
    is counted as passed, in the passed list and in the denominator, so it
    never makes the all-pass decision fail. *)
Theorem not_applicable_accounting
    (config_year : Z) (th : thresholds) (applicable : list Z) (m : measures)
    (row : gmap string cell) (category : position_category) :
  let cells := condition_cells config_year th applicable m in
  let agg := aggregate_conditions cells in
  let r := _evaluate_type1_conditions_unified row category in
  conditions_applicable agg
  = Z.of_nat (length (List.filter (counted_cond cells) (seqZ 1 10)))
  ∧ conditions_passed agg
    = Z.of_nat (length (List.filter (passed_cond cells) (seqZ 1 10)))
  ∧ (∀ i, cond_cell cells i = Some (Some "NOT_APPLICABLE") →
          counted_cond cells i = false ∧ passed_cond cells i = false)
  ∧ (∀ i, 1 ≤ i ≤ 10 → i ∉ applicable →
          cond_cell cells i = Some (Some "NOT_APPLICABLE"))
  ∧ (∀ i, counted_cond cells i = true → i ∈ applicable)
  ∧ passed_conditions r
    = List.filter (cond_passes row) (_get_applicable_conditions category)
  ∧ all_pass r = forallb (cond_passes row) (_get_applicable_conditions category)
  ∧ pass_rate r
    = len_ratio (passed_conditions r) (_get_applicable_conditions category)
  ∧ (∀ c col, condition_columns c = Some col →
              condition_value row col = "NOT_APPLICABLE" →
              cond_passes row c = true)
  ∧ (∀ row' : gmap string cell,
       (∀ c col, c ∈ _get_applicable_conditions category →
                 condition_columns c = Some col → row' !! col = row !! col) →
       _evaluate_type1_conditions_unified row' category = r).
Proof.
  intros cells agg r.
  assert (∀ i, cond_cell cells i = Some (Some "NOT_APPLICABLE") →
               counted_cond cells i = false ∧ passed_cond cells i = false) as Hna.
  { intros i Hi. unfold passed_cond, counted_cond. by rewrite Hi. }
  assert (∀ i, 1 ≤ i ≤ 10 → i ∉ applicable →
               cond_cell cells i = Some (Some "NOT_APPLICABLE")) as Hgate.
  { intros i Hi Hout.
    destruct (condition_cells_gate config_year th applicable m i Hi) as [res Hres].
    subst cells. rewrite Hres. by rewrite bool_decide_eq_false_2. }
  destruct (evaluate_unified_spec row category) as (Happ & Hpass & Hfail & Hall & Hrate).
  split; [|split; [|split; [exact Hna|split; [exact Hgate|split; [|split;
    [exact Hpass|split; [exact Hall|split; [|split]]]]]]]].
  - subst agg. unfold aggregate_conditions.
    rewrite count_conditions_spec. cbn [conditions_applicable]. lia.
  - subst agg. unfold aggregate_conditions.
    rewrite count_conditions_spec. cbn [conditions_passed]. lia.
  - intros i Hcount.
    destruct (decide (i ∈ applicable)) as [|Hout]; [done|].
    assert (1 ≤ i ≤ 10) as Hi.
    { unfold counted_cond, cond_cell in Hcount.
      destruct (condition_columns i) as [col|] eqn:Hcol; [|done].
      by eapply condition_columns_range. }
    destruct (Hna i (Hgate i Hi Hout)) as [Hno _]. congruence.
  - fold r in Hrate, Hpass. rewrite Hrate, Hpass. reflexivity.
  - intros c col Hcol Hval. unfold cond_passes. rewrite Hcol, Hval. reflexivity.
  - intros row' Hagree. subst r.
    unfold _evaluate_type1_conditions_unified.
    rewrite (evaluate_loop_agree row row'); [reflexivity|].
    by apply cond_passes_agree.
Qed.

Lemma not_applicable_accounting_witness :
  counted_cond on_leave_cells 1 = false
  ∧ cond_cell on_leave_cells 5 = Some (Some "NOT_APPLICABLE")
  ∧ cond_passes on_leave_cells 1 = true.
Proof.
  destruct (not_applicable_accounting 2025 default_thresholds [1; 2; 3; 4] on_leave
              on_leave_cells OTHER)
    as (_ & _ & Hna & Hgate & _ & _ & _ & _ & Hval & _).
  split; [|split].
  - apply (Hna 1). by vm_compute.
  - apply (Hgate 5); [lia|].
    intros Hin. apply list_elem_of_In in Hin. simpl in Hin.
    repeat (destruct Hin as [Hin|Hin]; [discriminate|]). exact Hin.
  - apply (Hval 1 "cond_1_attendance_rate"); by vm_compute.
Defined.

(** ** Consecutive audit failures *)

Lemma rstrip_cons_nonspace (c : ascii) (s : string) :
  is_space c = false → rstrip (String c s) = String c (rstrip s).
Proof.
  intros Hc. cbn [rstrip]. rewrite Hc. by destruct (rstrip s).
Qed.

Lemma lstrip_cons_nonspace (c : ascii) (s : string) :
  is_space c = false → lstrip (String c s) = String c s.
Proof. intros Hc. cbn [lstrip]. by rewrite Hc. Qed.

Lemma append_cons (c : ascii) (s r : string) :
  (String c s ++ r)%string = String c (s ++ r)%string.
Proof. reflexivity. Qed.

Lemma append_nil (r : string) : (EmptyString ++ r)%string = r.
Proof. reflexivity. Qed.

Lemma upper_strip_two_month_tag (rest : string) :
  upper (strip ("YES_2MONTHS_" ++ rest)%string)
  = ("YES_2MONTHS_" ++ upper (rstrip rest))%string.
Proof.
  unfold strip. rewrite !append_cons, append_nil.
  rewrite lstrip_cons_nonspace by reflexivity.
  rewrite !rstrip_cons_nonspace by reflexivity.
  reflexivity.
Qed.

Lemma month_fail_in_dom (failures : gmap string Z) (emp_id : string) :
  month_fail failures emp_id = true → emp_id ∈ dom failures.
Proof.
  unfold month_fail. intros H. apply elem_of_dom.
  destruct (failures !! emp_id); [eauto | done].
Qed.

Lemma cond_6_cell config_year th applicable m :
  6 ∈ applicable →
  cond_cell (condition_cells config_year th applicable m) 6
  = Some (Some (pass_if (negb (_is_consecutive_failure_for_year
                                 config_year (continuous_fail m) None)))).
Proof.
  intros H6. unfold cond_cell, condition_cells, gated.
  cbn [condition_columns mbind option_bind].
  repeat (rewrite lookup_insert_ne by done).
  rewrite lookup_insert_eq. by rewrite bool_decide_eq_true_2.
Qed.

(** C7. An employee with audit failures in exactly the two most recent of
    the three loaded periods gets the 2-consecutive tag (carrying the two
    period names), not the 3-consecutive one.  For a calculation year up to
    2025 that tag does not disqualify (only the 3-consecutive tag does, and
    condition 6 is written PASS); from 2026 on every tag starting with YES
    disqualifies (condition 6 is written FAIL). *)
Theorem two_month_failure_tag
    (m1 m2 m3 : gmap string Z) (month2_name month3_name emp_id : string)
    (config_year : Z) :
  month_fail m1 emp_id = false →
  month_fail m2 emp_id = true →
  month_fail m3 emp_id = true →
  let tag := continuous_fail_tag m1 m2 m3 month2_name month3_name emp_id in
  emp_id ∈ continuous_fail_2month m1 m2 m3
  ∧ (emp_id ∉ continuous_fail_3month m1 m2 m3)
  ∧ tag = ("YES_2MONTHS_" ++ upper (str_take 3 month2_name)
           ++ "_" ++ upper (str_take 3 month3_name))%string
  ∧ tag ≠ "YES_3MONTHS"
  ∧ (∀ year, year ≤ 2025 →
       _is_consecutive_failure_for_year config_year tag (Some year) = false
       ∧ _is_consecutive_failure_for_year config_year "YES_3MONTHS" (Some year) = true)
  ∧ (∀ year, 2026 ≤ year →
       _is_consecutive_failure_for_year config_year tag (Some year) = true
       ∧ _is_consecutive_failure_for_year config_year "YES_3MONTHS" (Some year) = true)
  ∧ (∀ th applicable m,
       6 ∈ applicable → continuous_fail m = tag →
       (config_year ≤ 2025 →
          cond_cell (condition_cells config_year th applicable m) 6
          = Some (Some "PASS"))
       ∧ (2026 ≤ config_year →
          cond_cell (condition_cells config_year th applicable m) 6
          = Some (Some "FAIL"))).
Proof.
  intros H1 H2 H3 tag.
  assert (emp_id ∈ all_employees m1 m2 m3) as Hall.
  { unfold all_employees. apply month_fail_in_dom in H2. set_solver. }
  assert (emp_id ∈ continuous_fail_2month m1 m2 m3) as Htwo.
  { unfold continuous_fail_2month. apply elem_of_filter.
    split; [|done]. by rewrite H1, H2, H3. }
  assert (emp_id ∉ continuous_fail_3month m1 m2 m3) as Hthree.
  { unfold continuous_fail_3month. intros [Hp _]%elem_of_filter.
    by rewrite H1 in Hp. }
  assert (tag = ("YES_2MONTHS_" ++ upper (str_take 3 month2_name)
                 ++ "_" ++ upper (str_take 3 month3_name))%string) as Htag.
  { subst tag. unfold continuous_fail_tag.
    destruct (decide (emp_id ∈ continuous_fail_3month m1 m2 m3)); [done|].
    by destruct (decide (emp_id ∈ continuous_fail_2month m1 m2 m3)). }
  assert (∀ cy year, year ≤ 2025 →
            _is_consecutive_failure_for_year cy tag (Some year) = false) as Hpre.
  { intros cy year Hy. unfold _is_consecutive_failure_for_year. cbn [default from_option id].
    destruct (Z.leb_spec year 2025); [|lia].
    rewrite Htag, upper_strip_two_month_tag. reflexivity. }
  assert (∀ cy year, 2026 ≤ year →
            _is_consecutive_failure_for_year cy tag (Some year) = true) as Hpost.
  { intros cy year Hy. unfold _is_consecutive_failure_for_year. cbn [default from_option id].
    destruct (Z.leb_spec year 2025); [lia|].
    rewrite Htag, upper_strip_two_month_tag. reflexivity. }
  split; [exact Htwo|]. split; [exact Hthree|]. split; [exact Htag|].
  split; [rewrite Htag; discriminate|].
  split; [|split].
  - intros year Hy. split; [by apply Hpre|].
    unfold _is_consecutive_failure_for_year. cbn [default from_option id].
    by destruct (Z.leb_spec year 2025); [|lia].
  - intros year Hy. split; [by apply Hpost|].
    unfold _is_consecutive_failure_for_year. cbn [default from_option id].
    by destruct (Z.leb_spec year 2025); [lia|].
  - intros th applicable m H6 Hm.
    rewrite cond_6_cell by done. rewrite Hm.
    split; intros Hy.
    + assert (_is_consecutive_failure_for_year config_year tag None = false) as ->;
        [|done].
      unfold _is_consecutive_failure_for_year. cbn [default from_option id].
      destruct (Z.leb_spec config_year 2025); [|lia].
      rewrite Htag, upper_strip_two_month_tag. reflexivity.
    + assert (_is_consecutive_failure_for_year config_year tag None = true) as ->;
        [|done].
      unfold _is_consecutive_failure_for_year. cbn [default from_option id].
      destruct (Z.leb_spec config_year 2025); [lia|].
      rewrite Htag, upper_strip_two_month_tag. reflexivity.
Qed.

Lemma two_month_failure_tag_witness :
  continuous_fail_tag ∅ {["000000001" := 1]} {["000000001" := 2]}
    "NOVEMBER" "DECEMBER" "000000001"
  = "YES_2MONTHS_NOV_DEC"
  ∧ _is_consecutive_failure_for_year 2025 "YES_2MONTHS_NOV_DEC" (Some 2025) = false
  ∧ _is_consecutive_failure_for_year 2025 "YES_2MONTHS_NOV_DEC" (Some 2026) = true.
Proof.
  assert (month_fail (∅ : gmap string Z) "000000001" = false) as H1 by reflexivity.
  assert (month_fail ({["000000001" := 1]} : gmap string Z) "000000001" = true) as H2
    by reflexivity.
  assert (month_fail ({["000000001" := 2]} : gmap string Z) "000000001" = true) as H3
    by reflexivity.
  destruct (two_month_failure_tag ∅ {["000000001" := 1]} {["000000001" := 2]}
              "NOVEMBER" "DECEMBER" "000000001" 2025 H1 H2 H3)
    as (_ & _ & Htag & _ & Hpre & Hpost & _).
  split; [exact Htag|].
  rewrite Htag in Hpre, Hpost.
  split.
  - apply (Hpre 2025). lia.
  - apply (Hpost 2026). lia.
Defined.

(** ** Location reconciliation *)

Lemma rstrip_idempotent (s : string) : rstrip (rstrip s) = rstrip s.
Proof.
  induction s as [|c s IH]; [done|].
  cbn [rstrip].
  destruct (rstrip s) as [|c2 r2] eqn:Hr.
  - destruct (is_space c) eqn:Hc; [done|].
    cbn [rstrip]. by rewrite Hc.
  - change (rstrip (String c (String c2 r2))) with
      (match rstrip (String c2 r2) with
       | EmptyString => if is_space c then EmptyString else String c EmptyString
       | String a r => String c (String a r)
       end).
    by rewrite IH.
Qed.

Lemma lstrip_no_leading_space (s : string) : no_leading_space (lstrip s).
Proof.
  induction s as [|c s IH]; [done|].
  cbn [lstrip]. by destruct (is_space c) eqn:Hc.
Qed.

Lemma rstrip_no_leading_space (s : string) :
  no_leading_space s → no_leading_space (rstrip s).
Proof.
  destruct s as [|c s]; [done|]. cbn [no_leading_space]. intros Hc.
  by rewrite rstrip_cons_nonspace.
Qed.

Lemma lstrip_fixed (s : string) : no_leading_space s → lstrip s = s.
Proof.
  destruct s as [|c s]; [done|]. cbn [no_leading_space lstrip]. by intros ->.
Qed.

Lemma strip_idempotent (s : string) : strip (strip s) = strip s.
Proof.
  unfold strip.
  rewrite (lstrip_fixed (rstrip (lstrip s))).
  - apply rstrip_idempotent.
  - apply rstrip_no_leading_space, lstrip_no_leading_space.
Qed.

Lemma clean_building_idempotent (present : bool) (raw : string) :
  clean_building true (clean_building present raw) = clean_building present raw.
Proof.
  unfold clean_building.
  destruct present; [|reflexivity].
  destruct (str_in (strip raw) [""; "nan"; "NaN"; "None"]) eqn:Hblank; [reflexivity|].
  by rewrite strip_idempotent, Hblank.
Qed.

Lemma clean_building_absent (raw : string) : clean_building false raw = "".
Proof. reflexivity. Qed.

Lemma eqb_string_false (a b : string) : a ≠ b → String.eqb a b = false.
Proof. intros H. by apply String.eqb_neq. Qed.

(** C9 (defect in the consolidation step). The roster holds A2 and the audit
    history holds A: the same building once normalized (first character,
    upper-cased).  [_process_building_consolidation] compares the two
    stripped values as they are and appends a mismatch record for this
    employee, whereas [generate_building_review_analysis] normalizes the same
    two values first and reports no data-source mismatch, as its docstring
    and comments announce (A2 = A is excluded). *)
Theorem consolidation_compares_unnormalized :
  normalize_building "A2" = Some "A"
  ∧ normalize_building "A" = Some "A"
  ∧ consolidate_row true true row_A2_A
    = ("A2", Some {| mm_Employee_No := "620080295";
                     mm_Full_Name := "NGUYEN VAN A";
                     Basic_BUILDING := "A2";
                     mm_AQL_BUILDING := "A";
                     Final_BUILDING := "A2" |})
  ∧ _process_building_consolidation true true [row_A2_A]
    = (["A2"], [{| mm_Employee_No := "620080295";
                   mm_Full_Name := "NGUYEN VAN A";
                   Basic_BUILDING := "A2";
                   mm_AQL_BUILDING := "A";
                   Final_BUILDING := "A2" |}])
  ∧ data_source_mismatch (after_consolidation true true row_A2_A) = None.
Proof. repeat split; reflexivity. Qed.

(** Row by row, the consolidation keeps the roster value when it is present
    and uses the audit-history value only when the roster value is absent.
    The record appended on a mismatch holds the two values as stripped, and
    two values whose normalized forms differ always produce one; the later
    review analysis then reports the same pair.  A record is appended exactly
    when both stripped values are present and differ: this is where the step
    departs from the normalized comparison of the review analysis (see
    [consolidation_compares_unnormalized]). *)
Lemma building_reconciliation
    (has_basic_building has_aql_building : bool) (row : building_row) :
  let basic := clean_building has_basic_building (BUILDING row) in
  let aql := clean_building has_aql_building (AQL_BUILDING row) in
  let result := consolidate_row has_basic_building has_aql_building row in
  (basic ≠ "" → result.1 = basic)
  ∧ (basic = "" → result.1 = aql)
  ∧ (basic ≠ "" → aql ≠ "" → basic ≠ aql →
       result.2 = Some {| mm_Employee_No := b_Employee_No row;
                          mm_Full_Name := b_Full_Name row;
                          Basic_BUILDING := basic;
                          mm_AQL_BUILDING := aql;
                          Final_BUILDING := basic |})
  ∧ (basic ≠ "" → aql ≠ "" →
       normalize_building basic ≠ normalize_building aql →
       ∃ record, result.2 = Some record
                 ∧ Basic_BUILDING record = basic
                 ∧ mm_AQL_BUILDING record = aql)
  ∧ (result.2 ≠ None → basic ≠ "" ∧ aql ≠ "" ∧ basic ≠ aql)
  ∧ (∀ hr_norm aql_norm,
       basic ≠ "" → aql ≠ "" →
       normalize_building basic = Some hr_norm →
       normalize_building aql = Some aql_norm →
       hr_norm ≠ aql_norm →
       data_source_mismatch
         (after_consolidation has_basic_building has_aql_building row)
       = Some (basic, aql)).
Proof.
  intros basic aql result.
  assert (basic ≠ "" → aql ≠ "" → basic ≠ aql →
          result = (basic, Some {| mm_Employee_No := b_Employee_No row;
                                   mm_Full_Name := b_Full_Name row;
                                   Basic_BUILDING := basic;
                                   mm_AQL_BUILDING := aql;
                                   Final_BUILDING := basic |})) as Hdiff.
  { intros Hb Ha Hne. subst result. unfold consolidate_row.
    fold basic. fold aql.
    by rewrite !eqb_string_false. }
  assert (basic ≠ "" → result.1 = basic) as Hkeep.
  { intros Hb. subst result. unfold consolidate_row. fold basic. fold aql.
    rewrite (eqb_string_false basic "") by done. cbn [negb andb].
    destruct (String.eqb aql ""); cbn [negb]; [done|].
    by destruct (String.eqb basic aql). }
  split; [exact Hkeep|].
  split.
  { intros Hb. subst result. unfold consolidate_row. fold basic. fold aql.
    rewrite Hb. cbn. by destruct (String.eqb_spec aql ""). }
  split; [intros Hb Ha Hne; by rewrite Hdiff|].
  split.
  { intros Hb Ha Hnorm.
    assert (basic ≠ aql) as Hne by (intros Heq; apply Hnorm; by rewrite Heq).
    rewrite (Hdiff Hb Ha Hne). eauto. }
  split.
  { subst result. unfold consolidate_row. fold basic. fold aql.
    destruct (String.eqb_spec basic ""), (String.eqb_spec aql "");
      cbn [negb andb snd]; try congruence.
    destruct (String.eqb_spec basic aql); cbn [snd]; [congruence | done]. }
  intros hr_norm aql_norm Hb Ha Hhr Haql Hne.
  assert (has_aql_building = true) as Hha.
  { destruct has_aql_building; [done|]. by destruct Ha. }
  unfold data_source_mismatch, after_consolidation. cbn [BUILDING AQL_BUILDING].
  fold result. rewrite (Hkeep Hb). rewrite Hha.
  assert (clean_building true (AQL_BUILDING row) = aql) as -> by (subst aql; by rewrite Hha).
  subst basic. rewrite clean_building_idempotent.
  rewrite !eqb_string_false by done. cbn [negb andb].
  rewrite Hhr, Haql. by rewrite eqb_string_false.
Qed.

Example building_reconciliation_row_A_B :
  (consolidate_row true true row_A_B).1 = "A"
  ∧ (∃ record, (consolidate_row true true row_A_B).2 = Some record
               ∧ Basic_BUILDING record = "A"
               ∧ mm_AQL_BUILDING record = "B")
  ∧ data_source_mismatch (after_consolidation true true row_A_B) = Some ("A", "B").
Proof.
  destruct (building_reconciliation true true row_A_B)
    as (Hkeep & _ & _ & Hnorm & _ & Hreview).
  split; [|split].
  - apply Hkeep. by vm_compute.
  - apply Hnorm; by vm_compute.
  - apply (Hreview "A" "B"); by vm_compute.
Defined.

(** ** Termination of the hierarchy traversal *)

Lemma filter_length_mono {A} (f g : A → bool) (l : list A) :
  (∀ x, f x = true → g x = true) →
  (length (List.filter f l) ≤ length (List.filter g l))%nat.
Proof.
  intros Himp. induction l as [|x l IH]; cbn [List.filter]; [done|].
  destruct (f x) eqn:Hf.
  - rewrite (Himp x Hf). cbn [length]. lia.
  - destruct (g x); cbn [length]; lia.
Qed.

Lemma filter_length_lt {A} (f g : A → bool) (l : list A) (y : A) :
  (∀ x, f x = true → g x = true) →
  y ∈ l → g y = true → f y = false →
  (length (List.filter f l) < length (List.filter g l))%nat.
Proof.
  intros Himp Hy Hg Hf. induction l as [|x l IH]; [by apply elem_of_nil in Hy|].
  cbn [List.filter].
  apply elem_of_cons in Hy as [<-|Hy].
  - rewrite Hg, Hf. cbn [length].
    pose proof (filter_length_mono f g l Himp). lia.
  - specialize (IH Hy). destruct (f x) eqn:Hfx.
    + rewrite (Himp x Hfx). cbn [length]. lia.
    + destruct (g x); cbn [length]; lia.
Qed.

Lemma unvisited_length_le (month_data : list Row) (seen seen' : gset Z) :
  seen ⊆ seen' →
  (length (unvisited month_data seen') ≤ length (unvisited month_data seen))%nat.
Proof.
  intros Hsub. apply filter_length_mono. intros r.
  destruct (Employee_No r) as [id|]; [|done].
  intros Hid%bool_decide_eq_true. apply bool_decide_eq_true. set_solver.
Qed.

Lemma unvisited_length_lt (month_data : list Row) (seen : gset Z) (row : Row) (id : Z) :
  row ∈ month_data → Employee_No row = Some id → id ∉ seen →
  (length (unvisited month_data ({[id]} ∪ seen)) < length (unvisited month_data seen))%nat.
Proof.
  intros Hrow Hid Hnew. apply (filter_length_lt _ _ _ row); [|done| |].
  - intros r. destruct (Employee_No r) as [id'|]; [|done].
    intros H%bool_decide_eq_true. apply bool_decide_eq_true. set_solver.
  - rewrite Hid. by apply bool_decide_eq_true.
  - rewrite Hid. apply bool_decide_eq_false. set_solver.
Qed.

(** What one row can do to the traversal state. *)
Lemma scan_row_cases (current_id : Z) (current_name : string)
    (st : bfs_state) (row : Row) :
  scan_row current_id current_name st row = st
  ∨ ∃ id, Employee_No row = Some id
          ∧ (id ∉ visited st)
          ∧ visited (scan_row current_id current_name st row) = {[id]} ∪ visited st
          ∧ (queue (scan_row current_id current_name st row) = queue st
             ∨ queue (scan_row current_id current_name st row)
               = queue st ++ [(id, Full_Name row)])
          ∧ (line_leaders (scan_row current_id current_name st row) = line_leaders st
             ∨ line_leaders (scan_row current_id current_name st row)
               = line_leaders st ++ [row]).
Proof.
  unfold scan_row.
  destruct (Employee_No row) as [id|] eqn:Hid; [|by left].
  destruct (bool_decide (id ∈ visited st)) eqn:Hseen; [by left|].
  apply bool_decide_eq_false in Hseen.
  destruct (is_subordinate row current_id current_name); [|by left].
  right. exists id. split; [done|]. split; [done|].
  destruct (nonblank (Stop_working_Date row)); [cbn; auto|].
  destruct (is_yes (pregnant row)); [cbn; auto|].
  cbn [visited queue line_leaders]. split; [done|]. split.
  - destruct (str_in (QIP_POSITION_1ST_NAME row) intermediate_positions); auto.
  - destruct (String.eqb (ROLE_TYPE_STD row) "TYPE-1"
              && String.eqb (QIP_POSITION_1ST_NAME row) "LINE LEADER"); auto.
Qed.

Lemma scan_row_inv (month_data : list Row) (V0 : gset Z) (popped : list Z)
    (current_id : Z) (current_name : string) (st : bfs_state) (row : Row) :
  row ∈ month_data →
  bfs_inv month_data V0 popped st →
  bfs_inv month_data V0 popped (scan_row current_id current_name st row)
  ∧ (bfs_measure month_data (scan_row current_id current_name st row)
     ≤ bfs_measure month_data st)%nat
  ∧ visited st ⊆ visited (scan_row current_id current_name st row).
Proof.
  intros Hrow Hinv.
  destruct (scan_row_cases current_id current_name st row)
    as [->|(id & Hid & Hnew & Hv & Hq & Hl)].
  { split; [exact Hinv|]. split; [lia | done]. }
  destruct Hinv as (Hnd & Hvis & HV0 & Hll & Hrows).
  remember (scan_row current_id current_name st row) as st' eqn:Hst'. clear Hst'.
  assert (id ∉ popped ++ map fst (queue st)) as Hfresh.
  { intros Hin. apply Hnew. by apply Hvis. }
  split; [|split].
  - unfold bfs_inv. rewrite Hv.
    split; [|split; [|split; [|split]]].
    + destruct Hq as [Hq|Hq]; rewrite Hq; [done|].
      rewrite map_app, app_assoc. cbn [map fst].
      apply NoDup_app. split; [done|]. split; [|apply NoDup_singleton].
      intros x Hx Hx'. apply list_elem_of_singleton in Hx'. by subst x.
    + intros x Hx. destruct Hq as [Hq|Hq]; rewrite Hq in Hx; [set_solver|].
      rewrite map_app, app_assoc in Hx. cbn [map fst] in Hx.
      apply elem_of_app in Hx as [Hx|Hx]; [set_solver|].
      apply list_elem_of_singleton in Hx. set_solver.
    + set_solver.
    + destruct Hl as [Hl|Hl]; rewrite Hl; [done|].
      rewrite map_app. cbn [map].
      apply NoDup_app. split; [done|]. split; [|apply NoDup_singleton].
      intros x Hx Hx'. apply list_elem_of_singleton in Hx'. subst x.
      apply list_elem_of_fmap in Hx as (r & Hr & Hin).
      destruct (Hrows r Hin) as (_ & id' & Hid' & Hseen & _).
      rewrite Hid, Hid' in Hr. injection Hr as ->. by apply Hnew.
    + intros r Hr.
      assert (r ∈ line_leaders st ∨ r = row) as [Hold| ->].
      { destruct Hl as [Hl|Hl]; rewrite Hl in Hr; [by left|].
        apply elem_of_app in Hr as [Hr|Hr]; [by left|].
        apply list_elem_of_singleton in Hr. by right. }
      * destruct (Hrows r Hold) as (Hmd & id' & Hid' & Hseen & Hout).
        split; [done|]. exists id'. split; [done|]. split; [set_solver | done].
      * split; [done|]. exists id. split; [done|]. split; [set_solver|].
        intros HinV0. apply Hnew. by apply HV0.
  - unfold bfs_measure. rewrite Hv.
    pose proof (unvisited_length_lt month_data (visited st) row id Hrow Hid Hnew).
    destruct Hq as [Hq|Hq]; rewrite Hq; [lia|]. rewrite length_app. cbn [length]. lia.
  - rewrite Hv. set_solver.
Qed.

Lemma scan_rows_inv (month_data : list Row) (V0 : gset Z) (popped : list Z)
    (current_id : Z) (current_name : string) (rows : list Row) :
  ∀ st,
    (∀ r, r ∈ rows → r ∈ month_data) →
    bfs_inv month_data V0 popped st →
    bfs_inv month_data V0 popped (foldl (scan_row current_id current_name) st rows)
    ∧ (bfs_measure month_data (foldl (scan_row current_id current_name) st rows)
       ≤ bfs_measure month_data st)%nat
    ∧ visited st ⊆ visited (foldl (scan_row current_id current_name) st rows).
Proof.
  induction rows as [|row rows IH]; intros st Hsub Hinv; cbn [foldl].
  { split; [done|]. split; [lia | done]. }
  destruct (scan_row_inv month_data V0 popped current_id current_name st row)
    as (Hinv1 & Hm1 & Hv1); [apply Hsub; left | done |].
  destruct (IH (scan_row current_id current_name st row)) as (Hinv2 & Hm2 & Hv2);
    [intros r Hr; apply Hsub; by right | done |].
  split; [done|]. split; [lia | set_solver].
Qed.

Lemma bfs_loop_nil (fuel : nat) (month_data : list Row) (st : bfs_state) :
  queue st = [] →
  bfs_loop fuel month_data st = Some st ∧ bfs_order fuel month_data st = [].
Proof. intros Hq. destruct fuel; cbn; by rewrite Hq. Qed.

Lemma bfs_loop_cons (fuel : nat) (month_data : list Row) (st : bfs_state)
    current_id current_name rest :
  queue st = (current_id, current_name) :: rest →
  let st1 :=
    foldl (scan_row current_id current_name)
      {| queue := rest; visited := visited st; line_leaders := line_leaders st |}
      month_data in
  bfs_loop (S fuel) month_data st = bfs_loop fuel month_data st1
  ∧ bfs_order (S fuel) month_data st = current_id :: bfs_order fuel month_data st1.
Proof. intros Hq. cbn. by rewrite Hq. Qed.

Lemma bfs_loop_terminates (month_data : list Row) (V0 : gset Z) :
  ∀ fuel popped st,
    bfs_inv month_data V0 popped st →
    (bfs_measure month_data st ≤ fuel)%nat →
    ∃ st',
      bfs_loop fuel month_data st = Some st'
      ∧ queue st' = []
      ∧ bfs_inv month_data V0 (popped ++ bfs_order fuel month_data st) st'
      ∧ visited st ⊆ visited st'
      ∧ ∀ fuel', (fuel ≤ fuel')%nat →
          bfs_loop fuel' month_data st = Some st'
          ∧ bfs_order fuel' month_data st = bfs_order fuel month_data st.
Proof.
  induction fuel as [|fuel IH]; intros popped st Hinv Hm.
  - assert (queue st = []) as Hq.
    { unfold bfs_measure in Hm. destruct (queue st); [done | cbn in Hm; lia]. }
    exists st. destruct (bfs_loop_nil 0 month_data st Hq) as [-> ->].
    rewrite app_nil_r. do 4 (split; [done|]).
    intros fuel' _. by apply bfs_loop_nil.
  - destruct (queue st) as [|[current_id current_name] rest] eqn:Hq.
    + exists st. destruct (bfs_loop_nil (S fuel) month_data st Hq) as [-> ->].
      rewrite app_nil_r. do 4 (split; [done|]).
      intros fuel' _. by apply bfs_loop_nil.
    + destruct (bfs_loop_cons fuel month_data st _ _ _ Hq) as [Hloop Horder].
      cbv zeta in Hloop, Horder.
      set (st0 := {| queue := rest; visited := visited st;
                     line_leaders := line_leaders st |}) in *.
      set (st1 := foldl (scan_row current_id current_name) st0 month_data) in *.
      assert (bfs_inv month_data V0 (popped ++ [current_id]) st0) as Hinv0.
      { destruct Hinv as (Hnd & Hvis & HV0 & Hll & Hrows).
        rewrite Hq in Hnd, Hvis. cbn [map fst] in Hnd, Hvis.
        unfold bfs_inv. subst st0. cbn [queue visited line_leaders].
        rewrite <- app_assoc. cbn [app]. done. }
      assert (S (bfs_measure month_data st0) = bfs_measure month_data st) as Hm0.
      { unfold bfs_measure. subst st0. cbn [queue visited]. rewrite Hq.
        cbn [length]. lia. }
      destruct (scan_rows_inv month_data V0 (popped ++ [current_id])
                  current_id current_name month_data st0)
        as (Hinv1 & Hm1 & Hv1); [done | done |].
      fold st1 in Hinv1, Hm1, Hv1.
      destruct (IH (popped ++ [current_id]) st1 Hinv1) as
        (st' & Hres & Hempty & Hinv' & Hv' & Hmono); [lia|].
      exists st'. rewrite Hloop, Horder.
      split; [done|]. split; [done|]. split.
      { rewrite <- app_assoc in Hinv'. exact Hinv'. }
      split.
      { subst st0. cbn [visited] in Hv1. set_solver. }
      intros fuel' Hfuel'. destruct fuel' as [|fuel']; [lia|].
      destruct (bfs_loop_cons fuel' month_data st _ _ _ Hq) as [-> ->].
      cbv zeta. fold st0. fold st1.
      destruct (Hmono fuel') as [-> ->]; [lia|]. done.
Qed.

(** C8. On every employee table, whatever cycles, self-references or
    duplicate rows its reporting lines contain, the breadth-first traversal
    from any manager terminates (one iteration per row plus one is enough, and
    more fuel changes nothing), no employee id is taken out of the queue
    twice, and the line leaders returned are rows of the table with pairwise
    distinct ids, none of them the manager's. *)
Theorem bfs_terminates (month_data : list Row) (manager_id : option Z) :
  ∃ st,
    bfs_from (S (length month_data)) month_data manager_id = Some st
    ∧ queue st = []
    ∧ (∀ fuel, (S (length month_data) ≤ fuel)%nat →
               bfs_from fuel month_data manager_id = Some st)
    ∧ _find_all_subordinate_line_leaders month_data manager_id = line_leaders st
    ∧ NoDup (map Employee_No (line_leaders st))
    ∧ NoDup (visit_order month_data manager_id)
    ∧ (∀ x, x ∈ visit_order month_data manager_id → x ∈ visited st)
    ∧ (∀ r, r ∈ line_leaders st →
            r ∈ month_data
            ∧ ∃ id, Employee_No r = Some id ∧ id ∈ visited st
                    ∧ Some id ≠ manager_id).
Proof.
  unfold _find_all_subordinate_line_leaders, visit_order, bfs_from.
  destruct manager_id as [mid|]; cbn [mbind option_bind].
  2: { exists {| queue := []; visited := ∅; line_leaders := [] |}. cbn.
       do 4 (split; [done|]). do 2 (split; [constructor|]).
       split; intros ? Hnil; by apply elem_of_nil in Hnil. }
  destruct (find_row month_data mid) as [manager_row|].
  2: { exists {| queue := []; visited := ∅; line_leaders := [] |}. cbn.
       do 4 (split; [done|]). do 2 (split; [constructor|]).
       split; intros ? Hnil; by apply elem_of_nil in Hnil. }
  fold (bfs_init mid (Full_Name manager_row)).
  set (init := bfs_init mid (Full_Name manager_row)).
  assert (bfs_inv month_data {[mid]} [] init) as Hinit.
  { unfold bfs_inv, init, bfs_init. cbn.
    split; [apply NoDup_singleton|]. split.
    { intros x Hx. apply list_elem_of_singleton in Hx. set_solver. }
    split; [done|]. split; [constructor|].
    intros r Hr. by apply elem_of_nil in Hr. }
  assert (bfs_measure month_data init ≤ S (length month_data))%nat as Hm.
  { unfold bfs_measure, init, bfs_init, unvisited. cbn [queue visited length].
    pose proof (List.filter_length_le
                  (λ r, match Employee_No r with
                        | Some id => bool_decide (id ∉ ({[mid]} : gset Z))
                        | None => false
                        end) month_data).
    lia. }
  destruct (bfs_loop_terminates month_data {[mid]} _ [] init Hinit Hm)
    as (st & Hres & Hempty & Hinv & Hv & Hmono).
  cbn [app] in Hinv. destruct Hinv as (Hnd & Hvis & HV0 & Hll & Hrows).
  rewrite Hempty in Hnd, Hvis. cbn [map] in Hnd, Hvis.
  rewrite app_nil_r in Hnd, Hvis.
  exists st. rewrite Hres. cbn.
  split; [done|]. split; [done|]. split.
  { intros fuel Hfuel. by destruct (Hmono fuel Hfuel). }
  split; [done|]. split; [done|]. split; [done|]. split; [done|].
  intros r Hr. destruct (Hrows r Hr) as (Hmd & id & Hid & Hseen & Hout).
  split; [done|]. exists id. split; [done|]. split; [done|].
  intros [= ->]. set_solver.
Qed.

Example bfs_cyclic_table :
  _find_all_subordinate_line_leaders cyclic_table (Some 1)
  = [mk_row 3 "L" "TYPE-1" "LINE LEADER" (Some 1) 200000]
  ∧ visit_order cyclic_table (Some 1) = [1; 2]
  ∧ _find_all_subordinate_line_leaders cyclic_table (Some 4) = [].
Proof. by vm_compute. Qed.

(** ** Roll-up averages *)

Lemma average_loop_spec (leaders : list Row) :
  ∀ total receiving_count total_count,
    average_loop leaders (total, receiving_count, total_count)
    = (fold_left add_incentive (receivers leaders) total,
       receiving_count + Z.of_nat (length (receivers leaders)),
       total_count + Z.of_nat (length leaders)).
Proof.
  induction leaders as [|r leaders IH]; intros t rc tc.
  - cbn. repeat (apply pair_equal_spec; split); [done | lia | lia].
  - cbn [average_loop]. unfold receivers in *. cbn [List.filter].
    destruct (0 <? Incentive r); rewrite IH; cbn [fold_left length];
      repeat (apply pair_equal_spec; split); try done; lia.
Qed.

Lemma average_unified_spec (leaders : list Row) :
  (receivers leaders ≠ [] →
     _calculate_line_leader_average_unified leaders
     = (float_total (receivers leaders)
        / float_of_Z (Z.of_nat (length (receivers leaders))))%float)
  ∧ (receivers leaders = [] →
     _calculate_line_leader_average_unified leaders = 0%float).
Proof.
  unfold _calculate_line_leader_average_unified.
  destruct leaders as [|r leaders]; [split; [done | done]|].
  rewrite average_loop_spec. rewrite !Z.add_0_l.
  set (l := r :: leaders).
  split.
  - intros Hne.
    assert (0 < Z.of_nat (length (receivers l))) as Hlen.
    { destruct (receivers l); [done | cbn [length]; lia]. }
    destruct (Z.ltb_spec 0 (Z.of_nat (length (receivers l)))); [done | lia].
  - intros ->. reflexivity.
Qed.

(** C6 (defect in the manager tiers). Manager 10 has one subordinate line
    leader, who received nothing, and a line leader elsewhere received
    200,000.  No subordinate line leader received a payout, so the roll-up
    should fall back to the pooled average of the receiving line leaders
    (200,000 x 3.5 = 700,000).  [calculate_managers_by_manual_logic_fixed]
    guards the fallback with [if line_leaders:], in the JSON branch and in
    the default branch alike, so it pays int(0 x 3.5) = 0; the head roll-up
    on the same table, guarded by [avg_incentive > 0] with the comment that
    an average of 0 takes the fallback, pays the pooled average x 2. *)
Theorem manager_rollup_misses_fallback :
  _find_all_subordinate_line_leaders rollup_table (Some 10)
  = [mk_row 11 "L1" "TYPE-1" "LINE LEADER" (Some 10) 0]
  ∧ receivers (_find_all_subordinate_line_leaders rollup_table (Some 10)) = []
  ∧ _calculate_line_leader_average_unified
      (_find_all_subordinate_line_leaders rollup_table (Some 10)) = 0%float
  ∧ pooled_average (receiving_line_leaders rollup_table) = 200000
  ∧ py_int (float_of_Z (pooled_average (receiving_line_leaders rollup_table))
            * 3.5)%float = 700000
  ∧ manager_incentive 3.5%float line_leader_average_config rollup_table
      (mk_row 10 "M" "TYPE-1" "MANAGER" None 0) = 0
  ∧ manager_incentive 3.5%float
      {| json_calculation_method := "";
         json_multiplier := None;
         json_min := 0;
         json_max := None |}
      rollup_table (mk_row 10 "M" "TYPE-1" "MANAGER" None 0) = 0
  ∧ ¬ (manager_incentive 3.5%float line_leader_average_config rollup_table
         (mk_row 10 "M" "TYPE-1" "MANAGER" None 0)
       = py_int (float_of_Z (pooled_average (receiving_line_leaders rollup_table))
                 * 3.5)%float)
  ∧ head_incentive rollup_table (mk_row 10 "M" "TYPE-1" "GROUP LEADER" None 0)
    = 400000.
Proof.
  repeat split; by vm_compute.
Qed.

(** [int(0.0 * m)] is 0: the product of zero and [m] is a zero, or a NaN
    when [m] is not finite. *)
Lemma py_int_zero_mul (m : float) : py_int (0 * m)%float = 0.
Proof.
  unfold py_int. rewrite mul_spec.
  change (Prim2SF 0%float) with (S754_zero false).
  by destruct (Prim2SF m) as [sign|sign| |sign mantissa exponent].
Qed.

(** What the roll-up functions compute.  The average of the subordinate line
    leaders is taken over receivers only: amounts that are not positive are
    left out of the sum and of the denominator, so {200000, 0, 400000}
    averages to 300000.  The head (group leader) roll-up takes the pooled
    average of all receiving line leaders when no subordinate line leader
    received a payout.  The manager tiers take it only when no subordinate
    line leader is found at all; when some are found and none of them
    received anything the amount is 0 for every finite multiplier (see
    [manager_rollup_misses_fallback]). *)
Lemma rollup_average_over_receivers
    (leaders month_data : list Row) (row : Row) (multiplier : float)
    (otherwise : Z) :
  let found := _find_all_subordinate_line_leaders month_data (Employee_No row) in
  let pooled := receiving_line_leaders month_data in
  (receivers leaders ≠ [] →
     _calculate_line_leader_average_unified leaders
     = (float_total (receivers leaders)
        / float_of_Z (Z.of_nat (length (receivers leaders))))%float)
  ∧ (receivers leaders = [] →
     _calculate_line_leader_average_unified leaders = 0%float)
  ∧ (∀ r1 r2 r3,
       Incentive r1 = 200000 → Incentive r2 = 0 → Incentive r3 = 400000 →
       _calculate_line_leader_average_unified [r1; r2; r3] = 300000%float)
  ∧ (Incentive row ≤ 0 → attendance_fail row = false →
     receivers found = [] →
     head_incentive month_data row
     = if (0 <? length pooled)%nat then pooled_average pooled * 2 else 0)
  ∧ (Incentive row ≤ 0 → attendance_fail row = false →
     (0 <? _calculate_line_leader_average_unified found)%float = true →
     head_incentive month_data row
     = py_int (_calculate_line_leader_average_unified found * 2)%float)
  ∧ (found = [] →
     manager_rollup month_data (Employee_No row) multiplier otherwise
     = if (0 <? length pooled)%nat
       then py_int (float_of_Z (pooled_average pooled) * multiplier)%float
       else otherwise)
  ∧ (found ≠ [] →
     manager_rollup month_data (Employee_No row) multiplier otherwise
     = py_int (_calculate_line_leader_average_unified found * multiplier)%float)
  ∧ (found ≠ [] → receivers found = [] → is_finite multiplier = true →
     manager_rollup month_data (Employee_No row) multiplier otherwise = 0).
Proof.
  intros found pooled.
  destruct (average_unified_spec leaders) as [Hsome Hnone].
  split; [exact Hsome|]. split; [exact Hnone|].
  split.
  { intros r1 r2 r3 H1 H2 H3.
    unfold _calculate_line_leader_average_unified.
    cbn [average_loop]. unfold add_incentive. rewrite H1, H2, H3.
    by vm_compute. }
  assert (head_incentive month_data row
          = if 0 <? Incentive row then Incentive row
            else if attendance_fail row then 0
            else if (0 <? _calculate_line_leader_average_unified found)%float
            then py_int (_calculate_line_leader_average_unified found * 2)%float
            else if (0 <? length pooled)%nat
            then pooled_average pooled * 2
            else 0) as Hhead.
  { unfold head_incentive. fold found. fold pooled.
    destruct (0 <? Incentive row); [done|].
    destruct (attendance_fail row); [done|].
    by destruct found. }
  destruct (average_unified_spec found) as [Hfsome Hfnone].
  split.
  { intros Hrow Hatt Hrec. rewrite Hhead, Hatt.
    destruct (Z.ltb_spec 0 (Incentive row)); [lia|].
    rewrite (Hfnone Hrec). reflexivity. }
  split.
  { intros Hrow Hatt Hpos. rewrite Hhead, Hatt, Hpos.
    by destruct (Z.ltb_spec 0 (Incentive row)); [lia|]. }
  split.
  { intros Hnil. unfold manager_rollup. fold found. by rewrite Hnil. }
  assert (found ≠ [] →
          manager_rollup month_data (Employee_No row) multiplier otherwise
          = py_int (_calculate_line_leader_average_unified found * multiplier)%float)
    as Hmgr.
  { intros Hne. unfold manager_rollup. fold found. by destruct found. }
  split; [exact Hmgr|].
  intros Hne Hrec _. rewrite (Hmgr Hne), (Hfnone Hrec).
  apply py_int_zero_mul.
Qed.

Example rollup_average_over_receivers_rollup_table :
  _calculate_line_leader_average_unified
    [mk_row 31 "x" "TYPE-1" "LINE LEADER" None 200000;
     mk_row 32 "y" "TYPE-1" "LINE LEADER" None 0;
     mk_row 33 "z" "TYPE-1" "LINE LEADER" None 400000]
  = 300000%float
  ∧ head_incentive rollup_table (mk_row 10 "M" "TYPE-1" "GROUP LEADER" None 0)
    = 400000
  ∧ manager_rollup rollup_table (Some 10) 3.5%float 0 = 0.
Proof.
  pose (three := [mk_row 31 "x" "TYPE-1" "LINE LEADER" None 200000;
                  mk_row 32 "y" "TYPE-1" "LINE LEADER" None 0;
                  mk_row 33 "z" "TYPE-1" "LINE LEADER" None 400000]).
  pose (head := mk_row 10 "M" "TYPE-1" "GROUP LEADER" None 0).
  destruct (rollup_average_over_receivers three rollup_table head 3.5%float 0)
    as (_ & _ & Hex & Hhead & _ & _ & _ & Hmgr).
  split; [|split].
  - apply Hex; reflexivity.
  - etransitivity; [apply Hhead; by vm_compute | by vm_compute].
  - apply Hmgr; by vm_compute.
Defined.

(** ** Line-leader amounts *)

Lemma type1_reports_cons (month_data : list Row) (sub_id : Z) (rest : list Z) :
  type1_reports month_data (sub_id :: rest)
  = match find_row month_data sub_id with
    | Some sub_row =>
        if String.eqb (ROLE_TYPE_STD sub_row) "TYPE-1"
        then sub_row :: type1_reports month_data rest
        else type1_reports month_data rest
    | None => type1_reports month_data rest
    end.
Proof.
  unfold type1_reports. cbn [omap list_omap].
  destruct (find_row month_data sub_id) as [sub_row|]; [|reflexivity].
  cbn [List.filter]. by destruct (String.eqb (ROLE_TYPE_STD sub_row) "TYPE-1").
Qed.

Lemma sum_subordinates_spec (month_data : list Row) (subordinates : list Z) :
  ∀ total receiving_count total_count,
    sum_subordinates month_data subordinates (total, receiving_count, total_count)
    = (fold_left add_incentive
         (receivers (type1_reports month_data subordinates)) total,
       receiving_count
       + Z.of_nat (length (receivers (type1_reports month_data subordinates))),
       total_count + Z.of_nat (length (type1_reports month_data subordinates))).
Proof.
  induction subordinates as [|sub_id rest IH]; intros t rc tc.
  - cbn. repeat (apply pair_equal_spec; split); [done | lia | lia].
  - cbn [sum_subordinates]. rewrite type1_reports_cons.
    destruct (find_row month_data sub_id) as [sub_row|]; [|apply IH].
    destruct (String.eqb (ROLE_TYPE_STD sub_row) "TYPE-1"); [|apply IH].
    unfold receivers in *. cbn [List.filter].
    destruct (0 <? Incentive sub_row); rewrite IH; cbn [fold_left length];
      repeat (apply pair_equal_spec; split); try done; lia.
Qed.

(** C5, as stated, fails when a direct report is not TYPE-1: leader 20 has a
    TYPE-1 report paid 150,000 and a TYPE-2 report paid nothing; the stated
    formula gives 150000 x 12% x 1/2 = 9000, the calculator pays 18000 because
    it leaves the TYPE-2 report out of the count. *)
Lemma line_leader_type2_report_counterexample :
  attendance_fail (mk_row 20 "LL" "TYPE-1" "LINE LEADER" None 0) = false
  ∧ check_subordinates_continuous_fail 2025 line_table (Some 20) line_mapping = false
  ∧ Qeq (spec_line_leader_amount line_table [21; 22]) (inject_Z 9000)
  ∧ line_leader_incentive 2025 true line_table line_mapping
      (mk_row 20 "LL" "TYPE-1" "LINE LEADER" None 0) = 18000
  ∧ ¬ Qeq (inject_Z (line_leader_incentive 2025 true line_table line_mapping
                       (mk_row 20 "LL" "TYPE-1" "LINE LEADER" None 0)))
          (spec_line_leader_amount line_table [21; 22]).
Proof.
  repeat split; try by vm_compute.
Qed.

(** C5 (amended). For every line leader whose amount is not set yet, who has
    no FAIL among the attendance conditions 1 to 4 and who has an entry in
    the subordinate mapping: when condition 7 applies to line leaders and a
    direct report found in the table carries a disqualifying consecutive
    failure tag, the amount is 0; otherwise the amount is the sum of the
    positive current-period amounts of the TYPE-1 direct reports x 12% x
    (number of TYPE-1 reports who received > 0 / number of TYPE-1 reports),
    computed in double precision and truncated to whole VND, and 0 when no
    TYPE-1 report received anything.  Reports of another role type enter
    neither the sum nor the counts. *)
Theorem line_leader_amount
    (config_year : Z) (should_check_subordinates : bool) (month_data : list Row)
    (subordinate_mapping : gmap Z (list Z)) (row : Row) (subordinates : list Z) :
  Incentive row ≤ 0 →
  attendance_fail row = false →
  Employee_No row ≫= (λ id, subordinate_mapping !! id) = Some subordinates →
  let reports := type1_reports month_data subordinates in
  let flagged :=
    check_subordinates_continuous_fail
      config_year month_data (Employee_No row) subordinate_mapping in
  let amount :=
    line_leader_incentive config_year should_check_subordinates month_data
      subordinate_mapping row in
  (should_check_subordinates = true → flagged = true → amount = 0)
  ∧ (should_check_subordinates && flagged = false →
     receivers reports ≠ [] →
     amount
     = py_int (float_total (receivers reports) * 0.12
               * (float_of_Z (Z.of_nat (length (receivers reports)))
                  / float_of_Z (Z.of_nat (length reports))))%float)
  ∧ (should_check_subordinates && flagged = false →
     receivers reports = [] → amount = 0)
  ∧ (flagged = true ↔
     ∃ sub_id sub_row,
       sub_id ∈ subordinates
       ∧ find_row month_data sub_id = Some sub_row
       ∧ _is_consecutive_failure_for_year
           config_year (Continuous_FAIL sub_row) None = true).
Proof.
  intros Hrow Hatt Hsubs reports flagged amount.
  assert (amount
          = if should_check_subordinates && flagged then 0
            else if (0 <? Z.of_nat (length reports))
                    && (0 <? Z.of_nat (length (receivers reports)))
            then line_leader_formula (float_total (receivers reports))
                   (Z.of_nat (length (receivers reports)))
                   (Z.of_nat (length reports))
            else 0) as Hamount.
  { subst amount. unfold line_leader_incentive.
    destruct (Z.ltb_spec 0 (Incentive row)); [lia|].
    rewrite Hatt, Hsubs, sum_subordinates_spec, !Z.add_0_l.
    fold reports. fold flagged. fold (float_total (receivers reports)).
    by destruct should_check_subordinates, flagged. }
  split; [intros -> Hf; by rewrite Hamount, Hf|].
  split.
  { intros Hno Hrec. rewrite Hamount, Hno.
    assert (0 < Z.of_nat (length (receivers reports))) as Hlen.
    { destruct (receivers reports); [done | cbn [length]; lia]. }
    assert (Z.of_nat (length (receivers reports)) ≤ Z.of_nat (length reports)) as Hle.
    { unfold receivers. pose proof (List.filter_length_le
                                      (λ r, 0 <? Incentive r) reports). lia. }
    destruct (Z.ltb_spec 0 (Z.of_nat (length reports))); [|lia].
    destruct (Z.ltb_spec 0 (Z.of_nat (length (receivers reports)))); [|lia].
    reflexivity. }
  split.
  { intros Hno Hrec. rewrite Hamount, Hno, Hrec. cbn [length].
    by rewrite andb_false_r. }
  subst flagged. unfold check_subordinates_continuous_fail. rewrite Hsubs.
  rewrite existsb_exists. split.
  - intros (sub_id & Hin & Hfail).
    destruct (find_row month_data sub_id) as [sub_row|] eqn:Hfind; [|done].
    exists sub_id, sub_row. by rewrite list_elem_of_In.
  - intros (sub_id & sub_row & Hin & Hfind & Hfail).
    exists sub_id. rewrite <- list_elem_of_In. split; [done|]. by rewrite Hfind.
Qed.

Lemma line_leader_amount_witness :
  line_leader_incentive 2025 true line_table line_mapping
    (mk_row 20 "LL" "TYPE-1" "LINE LEADER" None 0)
  = 18000.
Proof.
  pose (leader := mk_row 20 "LL" "TYPE-1" "LINE LEADER" None 0).
  assert (Incentive leader ≤ 0) as H1 by (by vm_compute).
  assert (attendance_fail leader = false) as H2 by (by vm_compute).
  assert (Employee_No leader ≫= (λ id, line_mapping !! id) = Some [21; 22]) as H3
    by (by vm_compute).
  destruct (line_leader_amount 2025 true line_table line_mapping leader [21; 22]
              H1 H2 H3) as (_ & Hpay & _).
  etransitivity; [apply Hpay; by vm_compute | by vm_compute].
Defined.

(** The float formula is not the exact product: 11 receivers out of 15
    reports sharing 150,000 give 13199, one less than 150000 x 0.12 x 11/15. *)
Example line_leader_formula_rounding :
  line_leader_formula 150000%float 11 15 = 13199
  ∧ line_leader_formula 150000%float 1 1 = 18000
  ∧ line_leader_formula 150000%float 1 7 = 2571.
Proof. repeat split; by vm_compute. Qed.

